(** * DataAkamuthu frontend: the telemetry view-model of [src/App.js]

    A shallow embedding of the decision logic of the [App] component:
    timestamp resolution ([getTimeValue], [formatTimestamp], the table's
    [dateStr]), metric availability ([hasData], [hasLightIntensity], the
    chart metric list), the per-metric chart series ([seriesData]), the
    table body, and the selection handler ([handleClick]).

    JavaScript values are embedded as an inductive type, objects as finite
    maps from property names to values, arrays as lists.  The platform
    functions the component calls but does not define ([Date.parse] and
    [Date.prototype.toLocaleString]) are the fields of a class, so every
    statement holds for every engine and locale. *)

From Stdlib Require Import QArith Qcanon Qround Ascii String DecimalString.
From stdpp Require Import gmap strings list sorting.

Local Open Scope string_scope.
Local Open Scope Z_scope.

(** ** JavaScript numbers

    A number is NaN, an infinity or a finite value.  Every finite double is
    a rational, so finite values are canonical rationals and what holds for
    all of them holds for all doubles; the two zeros are identified (they
    are equal under [===], equally falsy, and subtract to a zero).  Only the
    sign of a difference is ever observed (by [Array.prototype.sort]), and
    rounding a difference of two doubles never changes its sign, so [jsSub]
    is exact on finite values. *)

Inductive JsNum : Type :=
| NaN
| NegInf
| Fin (q : Qc)
| PosInf.

Definition ofZ (z : Z) : JsNum := Fin (Q2Qc (inject_Z z)).

(** [a - b] on numbers. *)
Definition jsSub (a b : JsNum) : JsNum :=
  match a, b with
  | NaN, _ | _, NaN => NaN
  | PosInf, PosInf | NegInf, NegInf => NaN
  | PosInf, _ => PosInf
  | NegInf, _ => NegInf
  | Fin _, PosInf => NegInf
  | Fin _, NegInf => PosInf
  | Fin x, Fin y => Fin (x - y)%Qc
  end.

(** [a <= b] on numbers: false as soon as one side is NaN. *)
Definition jsLe (a b : JsNum) : Prop :=
  match a, b with
  | NaN, _ | _, NaN => False
  | NegInf, _ => True
  | _, PosInf => True
  | Fin x, Fin y => (x <= y)%Qc
  | _, _ => False
  end.

(** [v > 0] on numbers. *)
Definition gtZero (v : JsNum) : bool :=
  match v with
  | PosInf => true
  | Fin q => match (q ?= 0)%Qc with Gt => true | _ => false end
  | _ => false
  end.

(** ** JavaScript values, as JSON delivers them

    Arrays occur only as the batch itself, which is a list of records. *)

#[warnings="-register-all"]
Inductive JsVal : Type :=
| VUndefined
| VNull
| VBool (b : bool)
| VNum (n : JsNum)
| VStr (s : string)
| VObj (props : gmap string JsVal).

(** A telemetry record is an object: its own properties by name. *)
Abbreviation Entry := (gmap string JsVal).

(** ToBoolean: what [if (v)], [v && _] and [v || _] test. *)
Definition truthy (v : JsVal) : bool :=
  match v with
  | VUndefined | VNull => false
  | VBool b => b
  | VNum NaN => false
  | VNum (Fin q) => match (q ?= 0)%Qc with Eq => false | _ => true end
  | VNum _ => true
  | VStr s => negb (String.eqb s "")
  | VObj _ => true
  end.

(** [v != null]: false exactly on [null] and [undefined]. *)
Definition notNull (v : JsVal) : bool :=
  match v with
  | VUndefined | VNull => false
  | _ => true
  end.

(** [typeof v === 'string'] and [typeof v === 'number']. *)
Definition isString (v : JsVal) : bool :=
  match v with VStr _ => true | _ => false end.

Definition isNumber (v : JsVal) : bool :=
  match v with VNum _ => true | _ => false end.

(** [entry.k] and [entry[k]] on a record: a missing property reads as
    [undefined]. *)
Definition prop (e : Entry) (k : string) : JsVal :=
  default VUndefined (e !! k).

(** [v.k] on a value, for a name [k] that no primitive wrapper prototype
    defines (the component only reads [$date]): the own property of an
    object, [undefined] on a boolean, number or string.  The component
    reads it only behind a truthiness test, so never on [null] or
    [undefined], where JavaScript throws. *)
Definition member (v : JsVal) (k : string) : JsVal :=
  match v with
  | VObj props => default VUndefined (props !! k)
  | _ => VUndefined
  end.

(** [a || b]. *)
Definition jsOr (a b : JsVal) : JsVal :=
  if truthy a then a else b.

(** ** The Date built-in *)

Definition maxTime : Z := 8640000000000000.

(** Truncation toward zero. *)
Definition truncQ (q : Qc) : Z :=
  Z.quot (Qnum (this q)) (Zpos (Qden (this q))).

Definition leQc (a b : Qc) : bool :=
  match (a ?= b)%Qc with Gt => false | _ => true end.

(** TimeClip: a time value is an integral number of milliseconds of
    magnitude at most 8.64e15; a finite number in that range is truncated,
    everything else is NaN. *)
Definition TimeClip (n : JsNum) : JsNum :=
  match n with
  | Fin q =>
      if leQc (Q2Qc (inject_Z (- maxTime))) q && leQc q (Q2Qc (inject_Z maxTime))
      then ofZ (truncQ q)
      else NaN
  | _ => NaN
  end.

(** The platform: [Date.parse] (NaN when the string is not recognised) and
    [toLocaleString] of a Date with the given time value.  Both depend on
    the engine, the locale and the time zone. *)
Class Platform : Type := {
  Date_parse : string -> JsNum;
  toLocaleString : JsNum -> string;
  Date_parse_empty : Date_parse "" = NaN
}.

(** ** Timestamp resolution *)

Section Resolver.
Context `{Platform}.

(** [new Date(v)], as its time value.  A string is parsed; an object
    (taken without [valueOf]/[toString] of its own) converts to the string
    ["[object Object]"] and is parsed; the other primitives convert to a
    number ([undefined] to NaN, [null] and [false] to 0, [true] to 1).  The
    result is clipped. *)
Definition newDate (v : JsVal) : JsNum :=
  match v with
  | VStr s => TimeClip (Date_parse s)
  | VObj _ => TimeClip (Date_parse "[object Object]")
  | VUndefined => TimeClip NaN
  | VNull => TimeClip (ofZ 0)
  | VBool b => TimeClip (ofZ (if b then 1 else 0))
  | VNum n => TimeClip n
  end.

(** [App.js] 56-63. *)
Definition getTimeValue (entry : Entry) : JsNum :=
  let timestamp := prop entry "timestamp" in
  if truthy timestamp then
    if truthy (member timestamp "$date") then newDate (member timestamp "$date")
    else if isString timestamp then newDate timestamp
    else match timestamp with
         | VNum n => n
         | _ => ofZ 0
         end
  else ofZ 0.

(** [App.js] 65-72. *)
Definition formatTimestamp (entry : Entry) : string :=
  let timestamp := prop entry "timestamp" in
  if truthy timestamp then
    if truthy (member timestamp "$date") then toLocaleString (newDate (member timestamp "$date"))
    else if isString timestamp then toLocaleString (newDate timestamp)
    else if isNumber timestamp then toLocaleString (newDate timestamp)
    else "Invalid"
  else "Invalid".

(** [App.js] 168-177: the table's own copy of the same cascade. *)
Definition dateStr (entry : Entry) : string :=
  let timestamp := prop entry "timestamp" in
  if truthy timestamp then
    if truthy (member timestamp "$date") then toLocaleString (newDate (member timestamp "$date"))
    else if isString timestamp then toLocaleString (newDate timestamp)
    else if isNumber timestamp then toLocaleString (newDate timestamp)
    else "Invalid or Missing Date"
  else "Invalid or Missing Date".
End Resolver.

(** ** Arrays *)

Section ArraySort.
Context {A : Type} (comparefn : A -> A -> JsNum).

(** [Array.prototype.sort(comparefn)] orders by the sign of
    [comparefn(a, b)], a NaN result counting as zero, and is stable.  For
    a consistent comparator the result is the unique stable ordering, here
    computed by insertion: each element goes before the first one of the
    already sorted rest that it does not exceed. *)
Fixpoint insertBy (x : A) (l : list A) : list A :=
  match l with
  | [] => [x]
  | y :: l' => if gtZero (comparefn x y) then y :: insertBy x l' else x :: y :: l'
  end.

Fixpoint sortBy (l : list A) : list A :=
  match l with
  | [] => []
  | x :: l' => insertBy x (sortBy l')
  end.
End ArraySort.

(** Rendering reads and writes the array that [selectedData] refers to: a
    computation takes its contents and returns them as it leaves them. *)
Definition Render (A : Type) : Type := list Entry -> A * list Entry.

#[global] Instance render_ret : MRet Render := fun A a arr => (a, arr).

#[global] Instance render_bind : MBind Render :=
  fun A B k m arr => let '(a, arr') := m arr in k a arr'.

(** [[...selectedData]]: a fresh array with the same elements. *)
Definition spread : Render (list Entry) := fun arr => (arr, arr).

(** [selectedData.sort(comparefn)]: sorts the array itself and returns it. *)
Definition sortInPlace (comparefn : Entry -> Entry -> JsNum) : Render (list Entry) :=
  fun arr => (sortBy comparefn arr, sortBy comparefn arr).

Fixpoint mapM {A B : Type} (f : A -> Render B) (l : list A) : Render (list B) :=
  match l with
  | [] => mret []
  | x :: l' => y ← f x; ys ← mapM f l'; mret (y :: ys)
  end.

(** ** Metric availability *)

(** [App.js] 52: [selectedData && selectedData.length > 0], as a condition. *)
Definition hasData (selectedData : option (list Entry)) : bool :=
  match selectedData with
  | None => false
  | Some arr => bool_decide (0 < length arr)%nat
  end.

(** [App.js] 53. *)
Definition hasLightIntensity (selectedData : option (list Entry)) : bool :=
  hasData selectedData &&
  match selectedData with
  | None => false
  | Some arr => existsb (fun entry => notNull (prop entry "percentage_light_intensity")) arr
  end.

Record MetricSpec : Type := {
  key : string;
  label : string;
  color : string
}.

(** [App.js] 114-118: the list the chart panel maps over. *)
Definition chartMetrics (selectedData : option (list Entry)) : list MetricSpec :=
  [ {| key := "temperature"; label := "Temperature"; color := "#ef4444" |};
    {| key := "humidity"; label := "Humidity"; color := "#3b82f6" |};
    {| key := "pressure"; label := "Pressure"; color := "#10b981" |} ]
  ++ (if hasLightIntensity selectedData
      then [ {| key := "percentage_light_intensity"; label := "Light Intensity"; color := "#f59e0b" |} ]
      else []).

(** ** Chart series and table body *)

Record SeriesPoint : Type := {
  time : string;
  value : JsVal
}.

Record TableRow : Type := {
  cellTimestamp : string;
  cellTemperature : JsVal;
  cellHumidity : JsVal;
  cellPressure : JsVal;
  cellLightIntensity : option JsVal
}.

Record Chart : Type := {
  chartKey : string;
  chartLabel : string;
  chartData : list SeriesPoint
}.

Section ViewModel.
Context `{Platform}.

(** [App.js] 121: the first filter. *)
Definition hasTelemetry (entry : Entry) : bool :=
  notNull (prop entry "temperature") || notNull (prop entry "humidity")
  || notNull (prop entry "pressure") || notNull (prop entry "percentage_light_intensity").

(** [App.js] 123: the chart comparator. *)
Definition byTimeAsc (a b : Entry) : JsNum :=
  jsSub (getTimeValue a) (getTimeValue b).

(** [App.js] 166: the table comparator. *)
Definition byTimeDesc (a b : Entry) : JsNum :=
  jsSub (getTimeValue b) (getTimeValue a).

(** [App.js] 121-123: the records behind a series, in chart order. *)
Definition seriesEntries (key : string) (copy : list Entry) : list Entry :=
  sortBy byTimeAsc
    (filter (fun entry => notNull (prop entry key))
       (filter (fun entry => hasTelemetry entry) copy)).

Definition seriesPoint (key : string) (entry : Entry) : SeriesPoint :=
  {| time := formatTimestamp entry; value := prop entry key |}.

(** [App.js] 120-127. *)
Definition seriesData (key : string) : Render (list SeriesPoint) :=
  copy ← spread;
  mret (map (seriesPoint key) (seriesEntries key copy)).

(** [App.js] 178-185. *)
Definition tableRow (hasLight : bool) (entry : Entry) : TableRow :=
  {| cellTimestamp := dateStr entry;
     cellTemperature := jsOr (prop entry "temperature") (VStr "N/A");
     cellHumidity := jsOr (prop entry "humidity") (VStr "N/A");
     cellPressure := jsOr (prop entry "pressure") (VStr "N/A");
     cellLightIntensity :=
       if hasLight
       then Some (jsOr (prop entry "percentage_light_intensity") (VStr "N/A"))
       else None |}.

(** [App.js] 165-187. *)
Definition tableBody (hasLight : bool) : Render (list TableRow) :=
  sorted ← sortInPlace byTimeDesc;
  mret (map (tableRow hasLight) sorted).

(** [App.js] 114-143. *)
Definition chartsPanel (selectedData : option (list Entry)) : Render (list Chart) :=
  mapM (fun m =>
          data ← seriesData (key m);
          mret {| chartKey := key m; chartLabel := label m; chartData := data |})
       (chartMetrics selectedData).
End ViewModel.

(** ** The component's state and its render *)

(** [App.js] 29-31.  [selectedData] and [selectedProfile] start as [null]. *)
Record AppState : Type := {
  profiles : list Entry;
  selectedData : option (list Entry);
  selectedProfile : JsVal
}.

Definition initialState : AppState :=
  {| profiles := []; selectedData := None; selectedProfile := VNull |}.

Inductive TablePanel : Type :=
| TableCard (header : list string) (rows : list TableRow)
| EmptyCard (text : string).

Record View : Type := {
  chartsPanelView : option (list Chart);
  tablePanelView : TablePanel
}.

Section Component.
Context `{Platform}.

(** [App.js] 157-161. *)
Definition tableHeader (hasLight : bool) : list string :=
  ["Timestamp"; "Temperature"; "Humidity"; "Pressure"]
  ++ (if hasLight then ["Light Intensity(%)"] else []).

(** [App.js] 74-199, without the map: the charts panel is evaluated
    before the table panel, both on the array the state refers to. *)
Definition render (st : AppState) : View * AppState :=
  match selectedData st with
  | Some arr =>
      if hasData (selectedData st) then
        let '(views, arr') :=
          (charts ← chartsPanel (selectedData st);
           rows ← tableBody (hasLightIntensity (selectedData st));
           mret {| chartsPanelView := Some charts;
                   tablePanelView :=
                     TableCard (tableHeader (hasLightIntensity (selectedData st))) rows |}) arr in
        (views,
         {| profiles := profiles st; selectedData := Some arr';
            selectedProfile := selectedProfile st |})
      else
        ({| chartsPanelView := None;
            tablePanelView := EmptyCard "No time-series data available for this profile." |},
         st)
  | None =>
      ({| chartsPanelView := None;
          tablePanelView := EmptyCard "Click a marker to load data." |},
       st)
  end.
End Component.

(** ** The selection handler *)

Inductive ConsoleEntry : Type :=
| ConsoleLog (message : string) (id : JsVal) (data : list Entry)
| ConsoleError (message : string) (err : JsVal).

Record World : Type := {
  app : AppState;
  console : list ConsoleEntry
}.

(** How the request settles. *)
Inductive Settled (A : Type) : Type :=
| Fulfilled (a : A)
| Rejected (reason : JsVal).
Arguments Fulfilled {A} a.
Arguments Rejected {A} reason.

Definition Eff (A : Type) : Type := World -> A * World.

#[global] Instance eff_ret : MRet Eff := fun A a w => (a, w).

#[global] Instance eff_bind : MBind Eff :=
  fun A B k m w => let '(a, w') := m w in k a w'.

Definition consoleLog (message : string) (id : JsVal) (data : list Entry) : Eff unit :=
  fun w => (tt, {| app := app w; console := console w ++ [ConsoleLog message id data] |}).

Definition consoleError (message : string) (err : JsVal) : Eff unit :=
  fun w => (tt, {| app := app w; console := console w ++ [ConsoleError message err] |}).

Definition setSelectedData (data : list Entry) : Eff unit :=
  fun w => (tt, {| app := {| profiles := profiles (app w); selectedData := Some data;
                            selectedProfile := selectedProfile (app w) |};
                   console := console w |}).

Definition setSelectedProfile (name : JsVal) : Eff unit :=
  fun w => (tt, {| app := {| profiles := profiles (app w); selectedData := selectedData (app w);
                            selectedProfile := name |};
                   console := console w |}).

(** [promise.then(onFulfilled)]: the callback runs on fulfilment only; a
    rejection passes through. *)
Definition then_ {A : Type} (p : Settled A) (onFulfilled : A -> Eff unit) : Eff (Settled unit) :=
  match p with
  | Fulfilled a => _ ← onFulfilled a; mret (Fulfilled tt)
  | Rejected reason => mret (Rejected reason)
  end.

(** [promise.catch(onRejected)]: the callback runs on rejection only. *)
Definition catch_ (p : Settled unit) (onRejected : JsVal -> Eff unit) : Eff (Settled unit) :=
  match p with
  | Fulfilled a => mret (Fulfilled a)
  | Rejected reason => _ ← onRejected reason; mret (Fulfilled tt)
  end.

(** [App.js] 42-50, run when the request for [id] settles as [response]. *)
Definition handleClick (id name : JsVal) (response : Settled (list Entry)) : Eff unit :=
  p ← then_ response (fun data =>
         _ ← consoleLog "Data loaded for ID" id data;
         _ ← setSelectedData data;
         setSelectedProfile name);
  _ ← catch_ p (fun err => consoleError "Error loading data:" err);
  mret tt.

(** ** A reference platform

    One engine to evaluate the component on: [Date.parse] restricted to the
    UTC form of the ECMAScript date-time string format
    ([YYYY-MM-DDTHH:mm:ssZ], with optional [.sss]), and [toLocaleString] in
    the [en-US] locale, UTC time zone. *)

Module RefPlatform.

Definition digit (c : ascii) : option Z :=
  let n := Z.of_N (Ascii.N_of_ascii c) in
  if (48 <=? n) && (n <=? 57) then Some (n - 48) else None.

Fixpoint digits (cs : list ascii) (acc : Z) : option Z :=
  match cs with
  | [] => Some acc
  | c :: cs' => d ← digit c; digits cs' (10 * acc + d)
  end.

Definition field (s : string) (start len : nat) : option Z :=
  digits (list_ascii_of_string (substring start len s)) 0.

Definition charAt (s : string) (i : nat) (c : ascii) : bool :=
  match String.get i s with
  | Some c' => Ascii.eqb c c'
  | None => false
  end.

Definition isLeap (y : Z) : bool :=
  ((y mod 4 =? 0) && negb (y mod 100 =? 0)) || (y mod 400 =? 0).

Definition daysInMonth (y m : Z) : Z :=
  if m =? 2 then (if isLeap y then 29 else 28)
  else if (m =? 4) || (m =? 6) || (m =? 9) || (m =? 11) then 30
  else 31.

(** Days from 1970-01-01 to the given civil date. *)
Definition daysFromCivil (y m d : Z) : Z :=
  let y' := if m <=? 2 then y - 1 else y in
  let era := y' / 400 in
  let yoe := y' - era * 400 in
  let doy := (153 * (if 2 <? m then m - 3 else m + 9) + 2) / 5 + d - 1 in
  let doe := yoe * 365 + yoe / 4 - yoe / 100 + doy in
  era * 146097 + doe - 719468.

(** The civil date (year, month, day) of a day number. *)
Definition civilFromDays (days : Z) : Z * Z * Z :=
  let z := days + 719468 in
  let era := z / 146097 in
  let doe := z - era * 146097 in
  let yoe := (doe - doe / 1460 + doe / 36524 - doe / 146096) / 365 in
  let doy := doe - (365 * yoe + yoe / 4 - yoe / 100) in
  let mp := (5 * doy + 2) / 153 in
  let d := doy - (153 * mp + 2) / 5 + 1 in
  let m := if mp <? 10 then mp + 3 else mp - 9 in
  (yoe + era * 400 + (if m <=? 2 then 1 else 0), m, d).

Definition msPerDay : Z := 86400000.

Definition parseFields (s : string) (withMillis : bool) : option Z :=
  y ← field s 0 4; m ← field s 5 2; d ← field s 8 2;
  hh ← field s 11 2; mm ← field s 14 2; ss ← field s 17 2;
  ms ← (if withMillis then field s 20 3 else Some 0);
  if charAt s 4 "-" && charAt s 7 "-" && charAt s 10 "T"
     && charAt s 13 ":" && charAt s 16 ":"
     && (if withMillis then charAt s 19 "." && charAt s 23 "Z" else charAt s 19 "Z")
     && (1 <=? m) && (m <=? 12) && (1 <=? d) && (d <=? daysInMonth y m)
     && (hh <=? 23) && (mm <=? 59) && (ss <=? 59)
  then Some (daysFromCivil y m d * msPerDay + hh * 3600000 + mm * 60000 + ss * 1000 + ms)
  else None.

Definition parse (s : string) : JsNum :=
  let r := if Nat.eqb (String.length s) 20 then parseFields s false
           else if Nat.eqb (String.length s) 24 then parseFields s true
           else None in
  match r with
  | Some ms => ofZ ms
  | None => NaN
  end.

Definition showNat (n : Z) : string :=
  NilZero.string_of_uint (N.to_uint (Z.to_N n)).

Definition pad2 (n : Z) : string :=
  if n <? 10 then "0" ++ showNat n else showNat n.

Definition format (tv : JsNum) : string :=
  match tv with
  | Fin q =>
      let ms := Qfloor (this q) in
      let '(y, m, d) := civilFromDays (ms / msPerDay) in
      let secs := (ms mod msPerDay) / 1000 in
      let hh := secs / 3600 in
      let h12 := if hh mod 12 =? 0 then 12 else hh mod 12 in
      let year := if y <? 0 then "-" ++ showNat (- y) else showNat y in
      showNat m ++ "/" ++ showNat d ++ "/" ++ year ++ ", "
      ++ showNat h12 ++ ":" ++ pad2 ((secs / 60) mod 60) ++ ":" ++ pad2 (secs mod 60)
      ++ (if hh <? 12 then " AM" else " PM")
  | _ => "Invalid Date"
  end.

Definition platform : Platform :=
  {| Date_parse := parse; toLocaleString := format; Date_parse_empty := eq_refl |}.

End RefPlatform.

(** ** Specification vocabulary *)

(** A timestamp from which no date is read: absent, [null], a boolean,
    zero, NaN, the empty string, or an object without a truthy [$date]. *)
Inductive Dateless : JsVal -> Prop :=
| dateless_undefined : Dateless VUndefined
| dateless_null : Dateless VNull
| dateless_bool b : Dateless (VBool b)
| dateless_zero : Dateless (VNum (ofZ 0))
| dateless_nan : Dateless (VNum NaN)
| dateless_empty : Dateless (VStr "")
| dateless_object o :
    truthy (default VUndefined (o !! "$date")) = false -> Dateless (VObj o).

(** Every adjacent pair of [l] is related by [R]. *)
Definition adjacentPairs {A : Type} (R : A -> A -> Prop) (l : list A) : Prop :=
  forall (i : nat) (a b : A), l !! i = Some a -> l !! S i = Some b -> R a b.

Definition ascending `{Platform} (l : list Entry) : Prop :=
  adjacentPairs (fun a b => jsLe (getTimeValue a) (getTimeValue b)) l.

Definition descending `{Platform} (l : list Entry) : Prop :=
  adjacentPairs (fun a b => jsLe (getTimeValue b) (getTimeValue a)) l.

(** Every record of the batch resolves to a number that is not NaN. *)
Definition resolves `{Platform} (batch : list Entry) : Prop :=
  Forall (fun entry => getTimeValue entry <> NaN) batch.

(** The rows of the table a view shows: none when the table is replaced by
    a card. *)
Definition renderedRows (v : View) : list TableRow :=
  match tablePanelView v with
  | TableCard _ rows => rows
  | EmptyCard _ => []
  end.

(** The record has none of the four metrics. *)
Definition noTelemetry (entry : Entry) : Prop :=
  notNull (prop entry "temperature") = false
  /\ notNull (prop entry "humidity") = false
  /\ notNull (prop entry "pressure") = false
  /\ notNull (prop entry "percentage_light_intensity") = false.

(** A table cell shows ["N/A"] for a falsy raw value and the raw value
    otherwise; the two can only coincide when the raw value is itself the
    string ["N/A"]. *)
Definition sentinelWhenFalsy (raw cell : JsVal) : Prop :=
  (truthy raw = false -> cell = VStr "N/A")
  /\ (truthy raw = true -> cell = raw)
  /\ (raw <> VStr "N/A" -> (cell = VStr "N/A" <-> truthy raw = false)).

(** ** Vocabulary for the order of ties *)

(** The comparator orders the two elements strictly, one way or the
    other. *)
Definition strictlyOrdered {A : Type} (comparefn : A -> A -> JsNum) (x y : A) : Prop :=
  gtZero (comparefn x y) = true \/ gtZero (comparefn y x) = true.

(** [l'] is [l] after exchanging strictly ordered neighbours, any number of
    times: elements the comparator does not separate keep their order. *)
Inductive tieOrder {A : Type} (comparefn : A -> A -> JsNum) : list A -> list A -> Prop :=
| tie_refl l : tieOrder comparefn l l
| tie_skip x l l' : tieOrder comparefn l l' -> tieOrder comparefn (x :: l) (x :: l')
| tie_swap x y l : strictlyOrdered comparefn x y -> tieOrder comparefn (x :: y :: l) (y :: x :: l)
| tie_trans l1 l2 l3 :
    tieOrder comparefn l1 l2 -> tieOrder comparefn l2 l3 -> tieOrder comparefn l1 l3.

#[global] Instance JsNum_eq_dec : EqDecision JsNum.
Proof. solve_decision. Defined.

(** The cells of a table row, left to right ([App.js] 180-184). *)
Definition rowCells (row : TableRow) : list JsVal :=
  [VStr (cellTimestamp row); cellTemperature row; cellHumidity row; cellPressure row]
  ++ match cellLightIntensity row with Some cell => [cell] | None => [] end.

(** The header a view shows above its rows. *)
Definition renderedHeader (v : View) : list string :=
  match tablePanelView v with
  | TableCard header _ => header
  | EmptyCard _ => []
  end.

(** The charts a view shows. *)
Definition renderedCharts (v : View) : list Chart :=
  match chartsPanelView v with
  | Some charts => charts
  | None => []
  end.

(** ** Requests settling one after the other *)

Record Settlement : Type := {
  requestId : JsVal;
  requestName : JsVal;
  requestResponse : Settled (list Entry)
}.

(** The callbacks of [handleClick] run as the requests settle, in that
    order, whatever the order of the clicks. *)
Fixpoint settleAll (rs : list Settlement) : Eff unit :=
  match rs with
  | [] => mret tt
  | r :: rs' =>
      _ ← handleClick (requestId r) (requestName r) (requestResponse r);
      settleAll rs'
  end.

(** The data and name of the last request that was fulfilled, if any. *)
Fixpoint lastFulfilled (rs : list Settlement) : option (list Entry * JsVal) :=
  match rs with
  | [] => None
  | r :: rs' =>
      match lastFulfilled rs' with
      | Some found => Some found
      | None =>
          match requestResponse r with
          | Fulfilled data => Some (data, requestName r)
          | Rejected _ => None
          end
      end
  end.

(** ** The map markers *)

(** A profile as the map reads it: its properties, and [latestCoords] kept
    aside since it is the one property read as an array: [Some items] when
    it is an array, [None] when it is anything else or absent. *)
Record Profile : Type := {
  profileProps : Entry;
  latestCoords : option (list JsVal)
}.

Record MarkerView : Type := {
  markerKey : JsVal;
  markerPosition : list JsVal;
  markerClick : Settled (list Entry) -> Eff unit;
  popupName : JsVal;
  popupCoordinates : string * string
}.

Section MapView.
(** [Number.prototype.toFixed], by number and digit count. *)
Context (toFixed : JsNum -> nat -> string).

(** [v.toFixed(digits)]: only a number has the method; on anything else the
    call throws. *)
Definition callToFixed (v : JsVal) (fractionDigits : nat) : option string :=
  match v with
  | VNum n => Some (toFixed n fractionDigits)
  | _ => None
  end.

(** [App.js] 84-86. *)
Definition position (profile : Profile) : option (list JsVal) :=
  match latestCoords profile with
  | Some items => if Nat.eqb (length items) 2 then Some items else None
  | None => None
  end.

(** [App.js] 87. *)
Definition displayName (profile : Profile) : JsVal :=
  jsOr (jsOr (prop (profileProps profile) "name") (prop (profileProps profile) "profileName"))
       (VStr "Unnamed profile").

(** [App.js] 83-106, for one profile: [None] when evaluating the element
    throws, [Some None] when the callback returns [null]. *)
Definition marker (profile : Profile) : option (option MarkerView) :=
  match position profile with
  | None => Some None
  | Some pos =>
      lat ← callToFixed (default VUndefined (pos !! 0%nat)) 4;
      lon ← callToFixed (default VUndefined (pos !! 1%nat)) 4;
      Some (Some {| markerKey := prop (profileProps profile) "id";
                    markerPosition := pos;
                    markerClick := handleClick (prop (profileProps profile) "id")
                                               (displayName profile);
                    popupName := displayName profile;
                    popupCoordinates := (lat, lon) |})
  end.

(** [profiles.map(...)], with the [null]s left out as React does: [None]
    when some element throws. *)
Fixpoint markers (profiles : list Profile) : option (list MarkerView) :=
  match profiles with
  | [] => Some []
  | profile :: rest =>
      m ← marker profile;
      ms ← markers rest;
      Some (match m with Some mv => mv :: ms | None => ms end)
  end.
End MapView.

(** A reference [Number.prototype.toFixed], for magnitudes below 1e21:
    the magnitude rounded to the digit count, halves upward, behind the
    sign. *)
Module RefNumber.

Fixpoint zeros (n : nat) : string :=
  match n with
  | O => ""
  | S n' => "0" ++ zeros n'
  end.

Definition padLeft (width : nat) (s : string) : string :=
  zeros (width - String.length s) ++ s.

Definition toFixed (n : JsNum) (fractionDigits : nat) : string :=
  match n with
  | NaN => "NaN"
  | PosInf => "Infinity"
  | NegInf => "-Infinity"
  | Fin q =>
      let scale := 10 ^ Z.of_nat fractionDigits in
      let magnitude := Z.abs (Qnum (this q)) # Qden (this q) in
      let scaled := Qfloor (magnitude * inject_Z scale + (1 # 2)) in
      (match Qcompare (this q) 0 with Lt => "-" | _ => "" end)
      ++ RefPlatform.showNat (scaled / scale)
      ++ (if Nat.eqb fractionDigits 0 then ""
          else "." ++ padLeft fractionDigits (RefPlatform.showNat (scaled mod scale)))
  end.

End RefNumber.

(** ** Numbers *)

Lemma truthy_num_false (q : Qc) : truthy (VNum (Fin q)) = false -> q = 0%Qc.
Proof.
  simpl. destruct (q ?= 0)%Qc eqn:E; try discriminate.
  intros _. by apply Qceq_alt.
Qed.

Lemma truthy_num_true (q : Qc) : q <> 0%Qc -> truthy (VNum (Fin q)) = true.
Proof.
  intros Hq. simpl. destruct (q ?= 0)%Qc eqn:E; try reflexivity.
  destruct Hq. by apply Qceq_alt.
Qed.

Lemma gtZero_sub_false (a b : JsNum) :
  a <> NaN -> b <> NaN -> gtZero (jsSub a b) = false -> jsLe a b.
Proof.
  destruct a as [| |x|], b as [| |y|]; simpl; try done.
  intros _ _. destruct (x - y ?= 0)%Qc eqn:E; try discriminate; intros _.
  - apply Qceq_alt in E. apply Qcle_minus_iff.
    replace (y + - x)%Qc with (- (x - y))%Qc by ring. by rewrite E.
  - apply Qclt_alt, Qclt_minus_iff in E. apply Qclt_le_weak, Qclt_minus_iff.
    by replace (y + - x)%Qc with (0 + - (x - y))%Qc by ring.
Qed.

Lemma gtZero_sub_true (a b : JsNum) :
  gtZero (jsSub a b) = true -> jsLe b a.
Proof.
  destruct a as [| |x|], b as [| |y|]; simpl; try done.
  destruct (x - y ?= 0)%Qc eqn:E; try discriminate; intros _.
  apply Qcgt_alt in E. apply Qclt_le_weak, Qclt_minus_iff. exact E.
Qed.

(** ** Timestamp resolution: the three accessors *)

Section ResolverFacts.
Context `{Platform}.

Lemma newDate_falsy (d : JsVal) (t : Qc) :
  truthy d = false -> newDate d = Fin t -> Fin t = ofZ 0.
Proof.
  destruct d as [| |[]|[| |q|]|s|o]; simpl; try done.
  - intros Hq. apply truthy_num_false in Hq. subst q. by intros <-.
  - destruct (String.eqb_spec s ""); [subst s | done].
    by rewrite Date_parse_empty.
Qed.

Lemma getTimeValue_wrapped (entry : Entry) (o : gmap string JsVal) :
  prop entry "timestamp" = VObj o ->
  truthy (default VUndefined (o !! "$date")) = true ->
  getTimeValue entry = newDate (default VUndefined (o !! "$date")).
Proof. intros Hts Hd. unfold getTimeValue. rewrite Hts. simpl. by rewrite Hd. Qed.

Lemma getTimeValue_string (entry : Entry) (s : string) :
  prop entry "timestamp" = VStr s -> s <> "" ->
  getTimeValue entry = newDate (VStr s).
Proof.
  intros Hts Hs. unfold getTimeValue. rewrite Hts. simpl.
  by destruct (String.eqb_spec s "").
Qed.

Lemma getTimeValue_dateless (entry : Entry) :
  Dateless (prop entry "timestamp") -> getTimeValue entry = ofZ 0.
Proof.
  unfold getTimeValue. intros Hd. inversion Hd as [| |b| | | |o Ho]; simpl; try done.
  - by destruct b.
  - by rewrite Ho.
Qed.

Lemma formatTimestamp_dateless (entry : Entry) :
  Dateless (prop entry "timestamp") -> formatTimestamp entry = "Invalid".
Proof.
  unfold formatTimestamp. intros Hd. inversion Hd as [| |b| | | |o Ho]; simpl; try done.
  - by destruct b.
  - by rewrite Ho.
Qed.

Lemma dateStr_dateless (entry : Entry) :
  Dateless (prop entry "timestamp") -> dateStr entry = "Invalid or Missing Date".
Proof.
  unfold dateStr. intros Hd. inversion Hd as [| |b| | | |o Ho]; simpl; try done.
  - by destruct b.
  - by rewrite Ho.
Qed.

(** C1. Representation independence of the sort key: when a wrapper
    object's [$date] sub-field, a date string and a number all stand for
    the instant [t] (the first two as the Date constructor reads them),
    [getTimeValue] returns [t] on each of the three records. *)
Theorem getTimeValue_representation_independent
    (t : Qc) (wrapped str num : Entry) (o : gmap string JsVal) (s : string) :
  prop wrapped "timestamp" = VObj o ->
  newDate (default VUndefined (o !! "$date")) = Fin t ->
  prop str "timestamp" = VStr s ->
  newDate (VStr s) = Fin t ->
  prop num "timestamp" = VNum (Fin t) ->
  getTimeValue wrapped = Fin t /\ getTimeValue str = Fin t /\ getTimeValue num = Fin t.
Proof.
  intros Hw Hd Hs Hp Hn. repeat split.
  - destruct (truthy (default VUndefined (o !! "$date"))) eqn:Htr.
    + by rewrite (getTimeValue_wrapped _ o).
    + rewrite (newDate_falsy _ t Htr Hd).
      apply getTimeValue_dateless. rewrite Hw. by constructor.
  - rewrite (getTimeValue_string _ s); [done..|].
    intros ->. simpl in Hp. by rewrite Date_parse_empty in Hp.
  - unfold getTimeValue. rewrite Hn.
    destruct (truthy (VNum (Fin t))) eqn:Htr; [done|].
    apply truthy_num_false in Htr. by subst t.
Qed.

(** C3, as amended. A record whose timestamp is absent, [null], a
    boolean, zero, NaN, the empty string or an object without a truthy
    [$date] resolves to instant 0, and the chart and table display
    accessors return their sentinels. *)
Theorem dateless_timestamp_sentinels (entry : Entry) :
  entry !! "timestamp" = None \/ Dateless (prop entry "timestamp") ->
  getTimeValue entry = ofZ 0
  /\ formatTimestamp entry = "Invalid"
  /\ dateStr entry = "Invalid or Missing Date".
Proof.
  intros Hd.
  assert (Dateless (prop entry "timestamp")) as Hd'.
  { destruct Hd as [Hnone|Hd]; [|done]. unfold prop. rewrite Hnone. constructor. }
  auto using getTimeValue_dateless, formatTimestamp_dateless, dateStr_dateless.
Qed.

(** C4, as amended. A numeric timestamp other than zero and NaN is
    returned as it is by the sort-key accessor and formatted as a date by
    both display accessors; the number zero resolves to instant 0 and to
    the display sentinels. *)
Theorem numeric_timestamp (entry : Entry) (n : JsNum) :
  prop entry "timestamp" = VNum n ->
  (n <> NaN -> n <> ofZ 0 ->
     getTimeValue entry = n
     /\ formatTimestamp entry = toLocaleString (newDate (VNum n))
     /\ dateStr entry = toLocaleString (newDate (VNum n)))
  /\ (n = ofZ 0 ->
     getTimeValue entry = n
     /\ formatTimestamp entry = "Invalid"
     /\ dateStr entry = "Invalid or Missing Date").
Proof.
  intros Hts. split.
  - intros Hnan Hz.
    assert (truthy (VNum n) = true) as Htr.
    { destruct n as [| |q|]; try done. apply truthy_num_true. intros ->. by apply Hz. }
    unfold getTimeValue, formatTimestamp, dateStr. rewrite Hts, Htr. done.
  - intros ->.
    assert (Dateless (prop entry "timestamp")) as Hd by (rewrite Hts; constructor).
    auto using getTimeValue_dateless, formatTimestamp_dateless, dateStr_dateless.
Qed.
End ResolverFacts.

Lemma getTimeValue_representation_independent_witness :
  let P := RefPlatform.platform in
  let t := Q2Qc (inject_Z 1704067200000) in
  let wrapped : Entry := {[ "timestamp" := VObj {[ "$date" := VStr "2024-01-01T00:00:00Z" ]} ]} in
  let str : Entry := {[ "timestamp" := VStr "2024-01-01T00:00:00.000Z" ]} in
  let num : Entry := {[ "timestamp" := VNum (Fin t) ]} in
  @getTimeValue P wrapped = Fin t /\ @getTimeValue P str = Fin t /\ @getTimeValue P num = Fin t.
Proof.
  intros P t wrapped str num.
  apply (@getTimeValue_representation_independent P t wrapped str num
           {[ "$date" := VStr "2024-01-01T00:00:00Z" ]} "2024-01-01T00:00:00.000Z");
    vm_compute; reflexivity.
Defined.

(** C3, as stated, fails on content that does not parse: the string goes
    to the Date constructor, whose NaN and ["Invalid Date"] come back
    instead of 0 and the sentinels. *)
Lemma unparseable_string_not_sentinel :
  let P := RefPlatform.platform in
  let entry : Entry := {[ "timestamp" := VStr "not a date" ]} in
  @Date_parse P "not a date" = NaN
  /\ @getTimeValue P entry = NaN
  /\ @getTimeValue P entry <> ofZ 0
  /\ @formatTimestamp P entry = "Invalid Date"
  /\ @formatTimestamp P entry <> "Invalid"
  /\ @dateStr P entry <> "Invalid or Missing Date".
Proof. vm_compute. repeat split; discriminate. Qed.

Lemma dateless_timestamp_sentinels_witness :
  let P := RefPlatform.platform in
  let entry : Entry := {[ "timestamp" := VObj {[ "when" := VStr "2024-01-01T00:00:00Z" ]};
                          "temperature" := VNum (ofZ 20) ]} in
  @getTimeValue P entry = ofZ 0
  /\ @formatTimestamp P entry = "Invalid"
  /\ @dateStr P entry = "Invalid or Missing Date".
Proof.
  intros P entry. apply (@dateless_timestamp_sentinels P entry).
  right. vm_compute. apply dateless_object. vm_compute. reflexivity.
Defined.

(** C4, as stated, fails at the number 0: the display accessor returns its
    sentinel where the Date constructor formats 0 as the epoch. *)
Lemma zero_timestamp_not_formatted :
  let P := RefPlatform.platform in
  let entry : Entry := {[ "timestamp" := VNum (ofZ 0) ]} in
  @formatTimestamp P entry = "Invalid"
  /\ @toLocaleString P (@newDate P (VNum (ofZ 0))) = "1/1/1970, 12:00:00 AM"
  /\ @formatTimestamp P entry <> @toLocaleString P (@newDate P (VNum (ofZ 0))).
Proof. vm_compute. repeat split; discriminate. Qed.

Lemma numeric_timestamp_witness :
  let P := RefPlatform.platform in
  let n := ofZ 1704067200000 in
  let entry : Entry := {[ "timestamp" := VNum n ]} in
  @getTimeValue P entry = n
  /\ @formatTimestamp P entry = @toLocaleString P (@newDate P (VNum n))
  /\ @dateStr P entry = @toLocaleString P (@newDate P (VNum n)).
Proof.
  intros P n entry.
  apply (proj1 (@numeric_timestamp P entry n eq_refl)); vm_compute; discriminate.
Defined.

(** ** Sorting *)

Section SortFacts.
Context {A : Type} (comparefn : A -> A -> JsNum).

Lemma insertBy_perm (x : A) (l : list A) : insertBy comparefn x l ≡ₚ x :: l.
Proof.
  induction l as [|y l IH]; simpl; [done|].
  destruct (gtZero (comparefn x y)); [|done].
  rewrite IH. apply Permutation_swap.
Qed.

Lemma sortBy_perm (l : list A) : sortBy comparefn l ≡ₚ l.
Proof.
  induction l as [|x l IH]; simpl; [done|].
  by rewrite insertBy_perm, IH.
Qed.

Lemma sortBy_length (l : list A) : length (sortBy comparefn l) = length l.
Proof. apply Permutation_length, sortBy_perm. Qed.

Lemma sortBy_elem_of (x : A) (l : list A) : x ∈ sortBy comparefn l <-> x ∈ l.
Proof. by rewrite sortBy_perm. Qed.

(** Ordering, for a comparator that decides a relation [R] on the
    elements satisfying [P]. *)
Context (R : A -> A -> Prop) (P : A -> Prop).
Hypothesis not_greater : forall x y, P x -> P y -> gtZero (comparefn x y) = false -> R x y.
Hypothesis greater : forall x y, P x -> P y -> gtZero (comparefn x y) = true -> R y x.

Lemma insertBy_HdRel (x y : A) (l : list A) :
  R y x -> HdRel R y l -> HdRel R y (insertBy comparefn x l).
Proof.
  intros Hyx Hhd. destruct l as [|z l]; simpl; [by constructor|].
  destruct (gtZero (comparefn x z)); constructor; [|done].
  by inversion Hhd.
Qed.

Lemma insertBy_Sorted (x : A) (l : list A) :
  P x -> Forall P l -> Sorted R l -> Sorted R (insertBy comparefn x l).
Proof.
  intros Hx Hl Hs. induction l as [|y l IH]; simpl.
  - by repeat constructor.
  - inversion Hl as [|? ? Hy Hl']; subst. inversion Hs as [|? ? Hs' Hhd]; subst.
    destruct (gtZero (comparefn x y)) eqn:E.
    + constructor; [by apply IH|].
      apply insertBy_HdRel; [by apply greater|done].
    + constructor; [done|]. constructor. by apply not_greater.
Qed.

Lemma sortBy_Sorted (l : list A) : Forall P l -> Sorted R (sortBy comparefn l).
Proof.
  induction l as [|x l IH]; simpl; [constructor|].
  intros Hl. inversion Hl as [|? ? Hx Hl']; subst.
  apply insertBy_Sorted; [done| |by apply IH].
  by rewrite sortBy_perm.
Qed.

Lemma Sorted_adjacentPairs (l : list A) : Sorted R l -> adjacentPairs R l.
Proof.
  induction 1 as [|x l Hs IH Hhd]; intros i a b Ha Hb; [done|].
  destruct i as [|i]; simpl in *.
  - injection Ha as ->. destruct l as [|y l]; [done|].
    simpl in Hb. injection Hb as ->. by inversion Hhd.
  - by apply (IH i).
Qed.
End SortFacts.

(** ** Chart series and table body *)

Section ViewModelFacts.
Context `{Platform}.

Lemma seriesData_eq (key : string) (arr : list Entry) :
  seriesData key arr = (map (seriesPoint key) (seriesEntries key arr), arr).
Proof. reflexivity. Qed.

Lemma tableBody_eq (hasLight : bool) (arr : list Entry) :
  tableBody hasLight arr
  = (map (tableRow hasLight) (sortBy byTimeDesc arr), sortBy byTimeDesc arr).
Proof. reflexivity. Qed.

Lemma seriesEntries_elem_of (key : string) (batch : list Entry) (entry : Entry) :
  entry ∈ seriesEntries key batch
  <-> entry ∈ batch /\ notNull (prop entry key) = true /\ hasTelemetry entry = true.
Proof.
  unfold seriesEntries. rewrite sortBy_elem_of, !list_elem_of_filter.
  rewrite !Is_true_true. tauto.
Qed.

Lemma hasTelemetry_true (entry : Entry) :
  hasTelemetry entry = true -> ~ noTelemetry entry.
Proof.
  unfold hasTelemetry, noTelemetry. intros Ht (E1 & E2 & E3 & E4).
  by rewrite E1, E2, E3, E4 in Ht.
Qed.

Lemma resolves_seriesEntries_ascending (key : string) (batch : list Entry) :
  resolves batch -> ascending (seriesEntries key batch).
Proof.
  intros Hres. apply Sorted_adjacentPairs.
  apply (sortBy_Sorted byTimeAsc _ (fun entry => getTimeValue entry <> NaN)).
  - intros x y Hx Hy. by apply gtZero_sub_false.
  - intros x y _ _. apply gtZero_sub_true.
  - apply Forall_forall. intros entry Hin.
    rewrite !list_elem_of_filter in Hin.
    unfold resolves in Hres. rewrite Forall_forall in Hres. apply Hres. tauto.
Qed.

Lemma resolves_table_descending (batch : list Entry) :
  resolves batch -> descending (sortBy byTimeDesc batch).
Proof.
  intros Hres. apply Sorted_adjacentPairs.
  apply (sortBy_Sorted byTimeDesc _ (fun entry => getTimeValue entry <> NaN)); [| |done].
  - intros x y Hx Hy. by apply gtZero_sub_false.
  - intros x y _ _. apply gtZero_sub_true.
Qed.

(** C2, as amended. When every record of the batch resolves to an
    instant that is not NaN, the points of a series are those of a record
    sequence ascending by resolved instant over all adjacent pairs, and the
    table rows those of a record sequence descending by resolved instant
    over all adjacent pairs. *)
Theorem series_ascending_table_descending
    (batch : list Entry) (key : string) (hasLight : bool) :
  resolves batch ->
  ((seriesData key batch).1 = map (seriesPoint key) (seriesEntries key batch)
   /\ ascending (seriesEntries key batch))
  /\ ((tableBody hasLight batch).1 = map (tableRow hasLight) (sortBy byTimeDesc batch)
      /\ descending (sortBy byTimeDesc batch)).
Proof.
  intros Hres. rewrite seriesData_eq, tableBody_eq. simpl.
  auto using resolves_seriesEntries_ascending, resolves_table_descending.
Qed.

(** C5. Every point of a series comes from a record of the batch whose
    value for the metric is neither null nor absent and which has at least
    one of the four metrics; when no record has the metric the series is
    the empty sequence. *)
Theorem series_excludes_discarded (batch : list Entry) (key : string) :
  (forall p, p ∈ (seriesData key batch).1 ->
     exists entry, entry ∈ batch /\ p = seriesPoint key entry
                   /\ notNull (prop entry key) = true /\ ~ noTelemetry entry)
  /\ (forall entry, entry ∈ seriesEntries key batch ->
        notNull (prop entry key) = true /\ ~ noTelemetry entry)
  /\ ((forall entry, entry ∈ batch -> notNull (prop entry key) = false) ->
      (seriesData key batch).1 = []).
Proof.
  rewrite seriesData_eq. simpl. split; [|split].
  - intros p Hp. apply list_elem_of_In, in_map_iff in Hp as (entry & <- & Hin).
    apply list_elem_of_In, seriesEntries_elem_of in Hin as (Hb & Hk & Ht).
    exists entry. auto using hasTelemetry_true.
  - intros entry Hin. apply seriesEntries_elem_of in Hin as (_ & Hk & Ht).
    auto using hasTelemetry_true.
  - intros Hnone.
    destruct (seriesEntries key batch) as [|entry l] eqn:E; [done|].
    assert (entry ∈ seriesEntries key batch) as Hin by (rewrite E; left).
    apply seriesEntries_elem_of in Hin as (Hb & Hk & _).
    rewrite (Hnone _ Hb) in Hk. done.
Qed.
End ViewModelFacts.

Lemma series_ascending_table_descending_witness :
  let P := RefPlatform.platform in
  let batch : list Entry :=
    [ {[ "timestamp" := VStr "2024-01-01T00:00:00Z"; "temperature" := VNum (ofZ 20) ]};
      {[ "timestamp" := VObj {[ "$date" := VStr "2024-01-02T00:00:00Z" ]};
         "temperature" := VNum (ofZ 21); "humidity" := VNum (ofZ 50) ]};
      {[ "timestamp" := VNum (ofZ 1704070000000); "temperature" := VNum (ofZ 22) ]} ] in
  @ascending P (@seriesEntries P "temperature" batch)
  /\ @descending P (sortBy (@byTimeDesc P) batch).
Proof.
  intros P batch.
  assert (@resolves P batch) as Hres by (repeat constructor; vm_compute; discriminate).
  destruct (@series_ascending_table_descending P batch "temperature" false Hres)
    as [[_ Hasc] [_ Hdesc]].
  split; assumption.
Defined.

(** C2, as stated, fails on a batch with a date string that does not
    parse: its instant is NaN, which is in order with no number, so no
    arrangement of the two records is ascending or descending, whatever the
    sort does with an inconsistent comparator. *)
Lemma unparseable_string_unsorted :
  let P := RefPlatform.platform in
  let batch : list Entry :=
    [ {[ "timestamp" := VStr "not a date"; "temperature" := VNum (ofZ 20) ]};
      {[ "timestamp" := VNum (ofZ 5); "temperature" := VNum (ofZ 21) ]} ] in
  ~ @ascending P (@seriesEntries P "temperature" batch)
  /\ ~ @descending P (sortBy (@byTimeDesc P) batch)
  /\ (forall l, l ≡ₚ batch -> ~ @ascending P l /\ ~ @descending P l).
Proof.
  intros P batch.
  assert (forall l, l ≡ₚ batch -> ~ @ascending P l /\ ~ @descending P l) as Hall.
  { intros l Hl. symmetry in Hl. apply Permutation_length_2_inv in Hl as [-> | ->];
      split; intros Hs; apply (Hs 0%nat _ _ eq_refl eq_refl). }
  split; [|split]; [| |exact Hall].
  - apply Hall. unfold seriesEntries. rewrite sortBy_perm. reflexivity.
  - apply Hall. apply sortBy_perm.
Qed.

Lemma series_excludes_discarded_witness :
  let P := RefPlatform.platform in
  let batch : list Entry :=
    [ {[ "timestamp" := VStr "2024-01-01T00:00:00Z"; "temperature" := VNum (ofZ 20) ]};
      {[ "timestamp" := VNum (ofZ 1704070000000) ]} ] in
  (@seriesData P "humidity" batch).1 = [].
Proof.
  intros P batch.
  apply (proj2 (proj2 (@series_excludes_discarded P batch "humidity"))).
  intros entry Hin. apply list_elem_of_In in Hin.
  destruct Hin as [<- | [<- | []]]; reflexivity.
Defined.

(** ** Metric availability *)

Lemma hasLightIntensity_spec (batch : list Entry) :
  hasLightIntensity (Some batch) = true
  <-> exists entry, entry ∈ batch /\ notNull (prop entry "percentage_light_intensity") = true.
Proof.
  unfold hasLightIntensity, hasData. rewrite andb_true_iff, existsb_exists. split.
  - intros [_ (entry & Hin & Hv)]. exists entry. by rewrite list_elem_of_In.
  - intros (entry & Hin & Hv). split; [|exists entry; by rewrite <- list_elem_of_In].
    apply bool_decide_eq_true. destruct batch; simpl; [by apply not_elem_of_nil in Hin|lia].
Qed.

(** C6. The chart metric list always has temperature, humidity and
    pressure, and has the light-intensity key exactly when some record of
    the batch has a non-null [percentage_light_intensity]. *)
Theorem chartMetrics_available (batch : list Entry) :
  let keys := map key (chartMetrics (Some batch)) in
  "temperature" ∈ keys /\ "humidity" ∈ keys /\ "pressure" ∈ keys
  /\ ("percentage_light_intensity" ∈ keys
      <-> exists entry, entry ∈ batch
                        /\ notNull (prop entry "percentage_light_intensity") = true).
Proof.
  intros keys. subst keys. unfold chartMetrics.
  rewrite <- hasLightIntensity_spec.
  destruct (hasLightIntensity (Some batch)); simpl;
    rewrite !list_elem_of_In; simpl; intuition discriminate.
Qed.

(** ** The render and the array it works on *)

Section RenderFacts.
Context `{Platform}.

Lemma mapM_frame {A B : Type} (f : A -> Render B) (l : list A) (arr : list Entry) :
  (forall x arr', (f x arr').2 = arr') -> (mapM f l arr).2 = arr.
Proof.
  intros Hf. induction l as [|x l IH]; simpl; [done|].
  unfold mbind, render_bind. specialize (Hf x arr).
  destruct (f x arr) as [y arr1]. simpl in Hf. subst arr1.
  destruct (mapM f l arr) as [ys arr2]. simpl in IH. by subst arr2.
Qed.

(** The chart series work on a copy: the array is left as it was. *)
Lemma seriesData_frame (key : string) (arr : list Entry) :
  (seriesData key arr).2 = arr.
Proof. reflexivity. Qed.

Lemma chartsPanel_frame (sd : option (list Entry)) (arr : list Entry) :
  (chartsPanel sd arr).2 = arr.
Proof. apply mapM_frame. reflexivity. Qed.

Lemma mapM_results {A B : Type} (f : A -> Render B) (l : list A) (arr : list Entry) :
  (forall x arr', (f x arr').2 = arr') ->
  (mapM f l arr).1 = map (fun x => (f x arr).1) l.
Proof.
  intros Hf. induction l as [|x l IH]; simpl; [done|].
  unfold mbind, render_bind. specialize (Hf x arr).
  destruct (f x arr) as [y arr1]. simpl in Hf. subst arr1.
  destruct (mapM f l arr) as [ys arr2]. simpl in IH. by rewrite IH.
Qed.

(** One chart per listed metric, in the order of the list. *)
Lemma chartsPanel_keys (sd : option (list Entry)) (arr : list Entry) :
  map chartKey (chartsPanel sd arr).1 = map key (chartMetrics sd).
Proof.
  unfold chartsPanel. rewrite mapM_results by reflexivity.
  rewrite map_map. reflexivity.
Qed.

(** The table body sorts the array itself. *)
Lemma tableBody_writes (hasLight : bool) (arr : list Entry) :
  (tableBody hasLight arr).2 = sortBy byTimeDesc arr.
Proof. reflexivity. Qed.

Lemma render_empty (st : AppState) :
  selectedData st = Some [] ->
  render st = ({| chartsPanelView := None;
                  tablePanelView :=
                    EmptyCard "No time-series data available for this profile." |}, st).
Proof. intros Hsel. unfold render. by rewrite Hsel. Qed.

Lemma render_nonempty (st : AppState) (arr : list Entry) :
  selectedData st = Some arr -> arr <> [] ->
  render st
  = ({| chartsPanelView := Some (chartsPanel (Some arr) arr).1;
        tablePanelView :=
          TableCard (tableHeader (hasLightIntensity (Some arr)))
            (map (tableRow (hasLightIntensity (Some arr))) (sortBy byTimeDesc arr)) |},
     {| profiles := profiles st; selectedData := Some (sortBy byTimeDesc arr);
        selectedProfile := selectedProfile st |}).
Proof.
  intros Hsel Hne. unfold render. rewrite Hsel.
  assert (hasData (Some arr) = true) as ->.
  { apply bool_decide_eq_true. destruct arr; simpl; [done|lia]. }
  unfold mbind, render_bind.
  pose proof (chartsPanel_frame (Some arr) arr) as Hframe.
  destruct (chartsPanel (Some arr) arr) as [charts arr1]. simpl in Hframe. subst arr1.
  reflexivity.
Qed.

Lemma renderedRows_nonempty (st : AppState) (arr : list Entry) :
  selectedData st = Some arr -> arr <> [] ->
  renderedRows (render st).1
  = map (tableRow (hasLightIntensity (Some arr))) (sortBy byTimeDesc arr).
Proof. intros Hsel Hne. by rewrite (render_nonempty st arr). Qed.

(** C7. The table shows as many rows as the batch has records, the empty
    batch included, and the light-intensity cell is in every row when the
    metric is active for the batch and in none otherwise. *)
Theorem table_row_count (st : AppState) (batch : list Entry) :
  selectedData st = Some batch ->
  let rows := renderedRows (render st).1 in
  length rows = length batch
  /\ (hasLightIntensity (Some batch) = true ->
      Forall (fun row => is_Some (cellLightIntensity row)) rows)
  /\ (hasLightIntensity (Some batch) = false ->
      Forall (fun row => cellLightIntensity row = None) rows).
Proof.
  intros Hsel rows. subst rows. destruct batch as [|entry batch].
  - rewrite (render_empty st Hsel). simpl. auto.
  - rewrite (renderedRows_nonempty st _ Hsel); [|done].
    rewrite length_map, sortBy_length.
    split; [done|]. split; intros ->; apply Forall_forall; intros row Hrow;
      apply list_elem_of_In, in_map_iff in Hrow as (e & <- & _); simpl; eauto.
Qed.

Lemma jsOr_sentinelWhenFalsy (raw : JsVal) :
  sentinelWhenFalsy raw (jsOr raw (VStr "N/A")).
Proof.
  unfold sentinelWhenFalsy, jsOr.
  destruct (truthy raw) eqn:E; repeat split; intros; congruence.
Qed.

(** C8. Each metric cell of a table row is ["N/A"] when the raw value is
    falsy and the raw value otherwise, so it is ["N/A"] exactly when the
    raw value is falsy (or is that very string); a temperature of 0
    renders ["N/A"]. *)
Theorem table_cells_sentinel (hasLight : bool) (entry : Entry) :
  let row := tableRow hasLight entry in
  sentinelWhenFalsy (prop entry "temperature") (cellTemperature row)
  /\ sentinelWhenFalsy (prop entry "humidity") (cellHumidity row)
  /\ sentinelWhenFalsy (prop entry "pressure") (cellPressure row)
  /\ (forall cell, cellLightIntensity row = Some cell ->
        sentinelWhenFalsy (prop entry "percentage_light_intensity") cell)
  /\ (prop entry "temperature" = VNum (ofZ 0) -> cellTemperature row = VStr "N/A").
Proof.
  simpl.
  split; [exact (jsOr_sentinelWhenFalsy _)|].
  split; [exact (jsOr_sentinelWhenFalsy _)|].
  split; [exact (jsOr_sentinelWhenFalsy _)|].
  split.
  - destruct hasLight; [|done]. intros cell [= <-]. exact (jsOr_sentinelWhenFalsy _).
  - by intros ->.
Qed.
End RenderFacts.

Lemma table_row_count_witness :
  let P := RefPlatform.platform in
  let batch : list Entry :=
    [ {[ "timestamp" := VStr "2024-01-01T00:00:00Z"; "temperature" := VNum (ofZ 20) ]};
      {[ "timestamp" := VObj {[ "$date" := VStr "2024-01-02T00:00:00Z" ]};
         "humidity" := VNum (ofZ 50) ]} ] in
  let st := {| profiles := []; selectedData := Some batch; selectedProfile := VStr "Station" |} in
  length (renderedRows (@render P st).1) = 2%nat
  /\ Forall (fun row => cellLightIntensity row = None) (renderedRows (@render P st).1).
Proof.
  intros P batch st.
  destruct (@table_row_count P st batch eq_refl) as (Hlen & _ & Hnone).
  split; [exact Hlen|]. apply Hnone. vm_compute. reflexivity.
Defined.

Lemma table_cells_sentinel_witness :
  let P := RefPlatform.platform in
  let entry : Entry := {[ "timestamp" := VNum (ofZ 1704070000000);
                          "temperature" := VNum (ofZ 0); "humidity" := VNum (ofZ 50) ]} in
  cellTemperature (@tableRow P false entry) = VStr "N/A"
  /\ cellHumidity (@tableRow P false entry) = VNum (ofZ 50)
  /\ cellPressure (@tableRow P false entry) = VStr "N/A".
Proof.
  intros P entry.
  destruct (@table_cells_sentinel P false entry) as (_ & Hh & Hp & _ & Hzero).
  split; [apply Hzero; reflexivity|].
  split; [apply (proj1 (proj2 Hh)); reflexivity|apply (proj1 Hp); reflexivity].
Defined.

(** C9. Rendering is not free of effects on the batch: the table body
    sorts the array that [selectedData] refers to, so a batch stored oldest
    first is stored newest first after one render.  The chart series, which
    sort a copy, leave it alone. *)
Theorem render_reorders_selectedData :
  let P := RefPlatform.platform in
  let older : Entry := {[ "timestamp" := VNum (ofZ 1000); "temperature" := VNum (ofZ 20) ]} in
  let newer : Entry := {[ "timestamp" := VNum (ofZ 2000); "temperature" := VNum (ofZ 21) ]} in
  let st := {| profiles := []; selectedData := Some [older; newer];
               selectedProfile := VStr "Station" |} in
  selectedData (@render P st).2 = Some [newer; older]
  /\ selectedData (@render P st).2 <> selectedData st
  /\ (@chartsPanel P (Some [older; newer]) [older; newer]).2 = [older; newer].
Proof.
  intros P older newer st.
  assert (selectedData (@render P st).2 = Some [newer; older]) as Hr
    by (vm_compute; reflexivity).
  split; [exact Hr|]. split; [|apply chartsPanel_frame].
  rewrite Hr. intros Heq.
  apply (f_equal (fun sd => match sd with
                            | Some (first :: _) => prop first "timestamp"
                            | _ => VUndefined
                            end)) in Heq.
  vm_compute in Heq. discriminate.
Qed.

(** The two-record batch: a string timestamp with a temperature, a wrapped
    timestamp a day later with a humidity.  Three charts, one temperature
    point, two rows with the later record first and ["N/A"] for what is
    unset. *)
Example render_two_records :
  let P := RefPlatform.platform in
  let batch : list Entry :=
    [ {[ "timestamp" := VStr "2024-01-01T00:00:00Z"; "temperature" := VNum (ofZ 20) ]};
      {[ "timestamp" := VObj {[ "$date" := VStr "2024-01-02T00:00:00Z" ]};
         "humidity" := VNum (ofZ 50) ]} ] in
  let st := {| profiles := []; selectedData := Some batch; selectedProfile := VStr "Station" |} in
  (@render P st).1
  = {| chartsPanelView :=
         Some [ {| chartKey := "temperature"; chartLabel := "Temperature";
                   chartData := [ {| time := "1/1/2024, 12:00:00 AM"; value := VNum (ofZ 20) |} ] |};
                {| chartKey := "humidity"; chartLabel := "Humidity";
                   chartData := [ {| time := "1/2/2024, 12:00:00 AM"; value := VNum (ofZ 50) |} ] |};
                {| chartKey := "pressure"; chartLabel := "Pressure"; chartData := [] |} ];
       tablePanelView :=
         TableCard ["Timestamp"; "Temperature"; "Humidity"; "Pressure"]
           [ {| cellTimestamp := "1/2/2024, 12:00:00 AM"; cellTemperature := VStr "N/A";
                cellHumidity := VNum (ofZ 50); cellPressure := VStr "N/A";
                cellLightIntensity := None |};
             {| cellTimestamp := "1/1/2024, 12:00:00 AM"; cellTemperature := VNum (ofZ 20);
                cellHumidity := VStr "N/A"; cellPressure := VStr "N/A";
                cellLightIntensity := None |} ] |}.
Proof. vm_compute. reflexivity. Qed.

(** ** The selection handler *)

Lemma handleClick_fulfilled (id name : JsVal) (data : list Entry) (w : World) :
  (handleClick id name (Fulfilled data) w).2
  = {| app := {| profiles := profiles (app w); selectedData := Some data;
                 selectedProfile := name |};
       console := console w ++ [ConsoleLog "Data loaded for ID" id data] |}.
Proof. reflexivity. Qed.

(** C10. When the telemetry request is rejected, the handler leaves the
    component state as it was (the batch and the selected name keep their
    values) and only appends the error to the console. *)
Theorem handleClick_rejected (id name err : JsVal) (w : World) :
  let w' := (handleClick id name (Rejected err) w).2 in
  app w' = app w
  /\ selectedData (app w') = selectedData (app w)
  /\ selectedProfile (app w') = selectedProfile (app w)
  /\ console w' = (console w ++ [ConsoleError "Error loading data:" err])%list.
Proof. simpl. auto. Qed.

(** ** The order of ties *)

Lemma sub_positive (x y : Qc) : (x - y ?= 0)%Qc = Gt <-> (y < x)%Qc.
Proof.
  rewrite <- Qcgt_alt. split.
  - intros E. apply Qclt_minus_iff. exact E.
  - intros E. apply Qclt_minus_iff in E. exact E.
Qed.

Lemma gtZero_sub_lt (x y : Qc) : gtZero (jsSub (Fin x) (Fin y)) = true <-> (y < x)%Qc.
Proof.
  simpl. rewrite <- sub_positive. by destruct (x - y ?= 0)%Qc.
Qed.

Lemma gtZero_sub_asym (a b : JsNum) :
  gtZero (jsSub a b) = true -> gtZero (jsSub b a) = false.
Proof.
  destruct a as [| |x|], b as [| |y|]; try done.
  rewrite gtZero_sub_lt. intros Hlt.
  apply not_true_is_false. rewrite gtZero_sub_lt.
  by apply Qcle_not_lt, Qclt_le_weak.
Qed.

Lemma gtZero_sub_trans (a b c : JsNum) :
  gtZero (jsSub a b) = true -> gtZero (jsSub b c) = true -> gtZero (jsSub a c) = true.
Proof.
  destruct a as [| |x|], b as [| |y|], c as [| |z|]; try done.
  rewrite !gtZero_sub_lt. intros Hyx Hzy. by apply Qclt_trans with y.
Qed.

Lemma gtZero_sub_diag (a : JsNum) : gtZero (jsSub a a) = false.
Proof.
  destruct a as [| |x|]; try done.
  apply not_true_is_false. rewrite gtZero_sub_lt. apply Qcle_not_lt, Qcle_refl.
Qed.

Lemma jsLe_not_gtZero (a b : JsNum) : jsLe a b -> gtZero (jsSub a b) = false.
Proof.
  destruct a as [| |x|], b as [| |y|]; try done.
  intros Hle. apply not_true_is_false. rewrite gtZero_sub_lt. by apply Qcle_not_lt.
Qed.

Section TieFacts.
Context {A : Type} (comparefn : A -> A -> JsNum).

Lemma tieOrder_perm (l l' : list A) : tieOrder comparefn l l' -> l ≡ₚ l'.
Proof.
  induction 1 as [l|x l l' _ IH|x y l _|l1 l2 l3 _ IH1 _ IH2].
  - done.
  - by rewrite IH.
  - apply Permutation_swap.
  - by rewrite IH1.
Qed.

Lemma tieOrder_sym (l l' : list A) : tieOrder comparefn l l' -> tieOrder comparefn l' l.
Proof.
  induction 1 as [l|x l l' _ IH|x y l Hxy|l1 l2 l3 _ IH1 _ IH2].
  - constructor.
  - by constructor.
  - constructor. destruct Hxy; [by right|by left].
  - by apply tie_trans with l2.
Qed.

(** Insertion only carries the new element past elements it strictly
    exceeds. *)
Lemma insertBy_tieOrder (x : A) (l : list A) :
  tieOrder comparefn (insertBy comparefn x l) (x :: l).
Proof.
  induction l as [|y l IH]; simpl; [constructor|].
  destruct (gtZero (comparefn x y)) eqn:E; [|constructor].
  apply tie_trans with (y :: x :: l); [by constructor|].
  constructor. by right.
Qed.

Lemma sortBy_tieOrder (l : list A) : tieOrder comparefn (sortBy comparefn l) l.
Proof.
  induction l as [|x l IH]; simpl; [constructor|].
  apply tie_trans with (x :: sortBy comparefn l);
    [apply insertBy_tieOrder|by constructor].
Qed.

Lemma tieOrder_filter (P : A -> Prop) `{!forall x, Decision (P x)} (l l' : list A) :
  tieOrder comparefn l l' -> tieOrder comparefn (filter P l) (filter P l').
Proof.
  induction 1 as [l|x l l' _ IH|x y l Hxy|l1 l2 l3 _ IH1 _ IH2].
  - constructor.
  - rewrite !filter_cons. destruct (decide (P x)); [by constructor|done].
  - rewrite !filter_cons.
    destruct (decide (P x)), (decide (P y)); try constructor. done.
  - by apply tie_trans with (filter P l2).
Qed.

(** A sorted array is left as it is. *)
Lemma sortBy_Sorted_id (l : list A) :
  Sorted (fun x y => gtZero (comparefn x y) = false) l -> sortBy comparefn l = l.
Proof.
  induction 1 as [|x l Hs IH Hhd]; simpl; [done|].
  rewrite IH. destruct Hhd as [|y l Hxy]; simpl; [done|]. by rewrite Hxy.
Qed.

(** The rest holds for a comparator whose strict part is asymmetric and
    transitive, as the difference of two sort keys is. *)
Hypothesis asym : forall x y, gtZero (comparefn x y) = true -> gtZero (comparefn y x) = false.
Hypothesis trans : forall x y z,
  gtZero (comparefn x y) = true -> gtZero (comparefn y z) = true ->
  gtZero (comparefn x z) = true.

Lemma insertBy_comm (x y : A) (l : list A) :
  gtZero (comparefn y x) = true ->
  insertBy comparefn y (insertBy comparefn x l)
  = insertBy comparefn x (insertBy comparefn y l).
Proof.
  intros Hyx. pose proof (asym _ _ Hyx) as Hxy.
  induction l as [|z l IH]; simpl.
  - by rewrite Hyx, Hxy.
  - destruct (gtZero (comparefn x z)) eqn:Hxz; simpl.
    + rewrite (trans _ _ _ Hyx Hxz). simpl. by rewrite Hxz, IH.
    + rewrite Hyx. destruct (gtZero (comparefn y z)) eqn:Hyz; simpl.
      * by rewrite Hxz.
      * by rewrite Hxy.
Qed.

(** Sorting does not see an exchange of strictly ordered neighbours. *)
Lemma tieOrder_sortBy (l l' : list A) :
  tieOrder comparefn l l' -> sortBy comparefn l = sortBy comparefn l'.
Proof.
  induction 1 as [l|x l l' _ IH|x y l Hxy|l1 l2 l3 _ IH1 _ IH2]; simpl.
  - done.
  - by rewrite IH.
  - destruct Hxy as [Hxy|Hyx]; [by apply insertBy_comm|].
    symmetry. by apply insertBy_comm.
  - by rewrite IH1.
Qed.

Lemma sortBy_idem (l : list A) :
  sortBy comparefn (sortBy comparefn l) = sortBy comparefn l.
Proof. apply tieOrder_sortBy, sortBy_tieOrder. Qed.
End TieFacts.

Lemma tieOrder_flip {A : Type} (c1 c2 : A -> A -> JsNum) (l l' : list A) :
  (forall x y, c2 x y = c1 y x) -> tieOrder c1 l l' -> tieOrder c2 l l'.
Proof.
  intros Hflip. induction 1 as [l|x l l' _ IH|x y l Hxy|l1 l2 l3 _ IH1 _ IH2].
  - constructor.
  - by constructor.
  - constructor. unfold strictlyOrdered in *. rewrite !Hflip. tauto.
  - by apply tie_trans with l2.
Qed.

(** ** Time values *)

Lemma this_ofZ (z : Z) : this (Q2Qc (inject_Z z)) = inject_Z z.
Proof. simpl. apply Qred_identity. simpl. apply Z.gcd_1_r. Qed.

Lemma truncQ_ofZ (z : Z) : truncQ (Q2Qc (inject_Z z)) = z.
Proof. unfold truncQ. rewrite this_ofZ. simpl. apply Z.quot_1_r. Qed.

Lemma leQc_ofZ (a b : Z) : leQc (Q2Qc (inject_Z a)) (Q2Qc (inject_Z b)) = (a <=? b).
Proof.
  unfold leQc, Qccompare, Qcompare. rewrite !this_ofZ. simpl.
  rewrite !Z.mul_1_r. unfold Z.leb. by destruct (a ?= b).
Qed.

Lemma leQc_lower (m : Z) (q : Qc) :
  leQc (Q2Qc (inject_Z m)) q = true -> m <= truncQ q.
Proof.
  unfold leQc, Qccompare, Qcompare, truncQ. rewrite this_ofZ. simpl.
  destruct (this q) as [n d]. simpl. rewrite Z.mul_1_r. intros Hle.
  assert (m * Z.pos d <= n) as Hmn
    by (destruct (Z.compare_spec (m * Z.pos d) n); [lia..|done]).
  rewrite <- (Z.quot_mul m (Z.pos d)) by lia.
  apply Z.quot_le_mono; lia.
Qed.

Lemma leQc_upper (m : Z) (q : Qc) :
  leQc q (Q2Qc (inject_Z m)) = true -> truncQ q <= m.
Proof.
  unfold leQc, Qccompare, Qcompare, truncQ. rewrite this_ofZ. simpl.
  destruct (this q) as [n d]. simpl. rewrite Z.mul_1_r. intros Hle.
  assert (n <= m * Z.pos d) as Hmn
    by (destruct (Z.compare_spec n (m * Z.pos d)); [lia..|done]).
  rewrite <- (Z.quot_mul m (Z.pos d)) by lia.
  apply Z.quot_le_mono; lia.
Qed.

(** Clipping a time value leaves it as it is. *)
Lemma TimeClip_idem (n : JsNum) : TimeClip (TimeClip n) = TimeClip n.
Proof.
  destruct n as [| |q|]; try done. simpl.
  destruct (leQc (Q2Qc (inject_Z (- maxTime))) q) eqn:Hlo; [|done].
  destruct (leQc q (Q2Qc (inject_Z maxTime))) eqn:Hhi; [|done].
  apply leQc_lower in Hlo. apply leQc_upper in Hhi.
  unfold ofZ at 1. cbn [andb TimeClip]. rewrite !leQc_ofZ, truncQ_ofZ.
  by rewrite (proj2 (Z.leb_le _ _) Hlo), (proj2 (Z.leb_le _ _) Hhi).
Qed.

Section ResolverMore.
Context `{Platform}.

Lemma newDate_clipped (v : JsVal) : TimeClip (newDate v) = newDate v.
Proof. destruct v as [| |b| | |]; unfold newDate; apply TimeClip_idem. Qed.

(** X1. Either the timestamp is dateless, with instant 0 and both display
    sentinels, or both display accessors return the platform's rendering
    of one and the same time value: the sort key, clipped to a time value. *)
Theorem displays_follow_sort_key (entry : Entry) :
  (Dateless (prop entry "timestamp")
   /\ getTimeValue entry = ofZ 0
   /\ formatTimestamp entry = "Invalid"
   /\ dateStr entry = "Invalid or Missing Date")
  \/ (formatTimestamp entry = toLocaleString (TimeClip (getTimeValue entry))
      /\ dateStr entry = formatTimestamp entry).
Proof.
  unfold getTimeValue, formatTimestamp, dateStr.
  destruct (prop entry "timestamp") as [| |b|n|s|o] eqn:Hts; simpl.
  - left. repeat split. constructor.
  - left. repeat split. constructor.
  - left. destruct b; repeat split; constructor.
  - destruct (truthy (VNum n)) eqn:Htr; simpl in Htr; rewrite Htr.
    + right. done.
    + left. destruct n as [| |q|]; try done; repeat split; try constructor.
      apply truthy_num_false in Htr. subst q. constructor.
  - destruct (String.eqb_spec s ""); simpl.
    + left. subst s. repeat split. constructor.
    + right. by rewrite TimeClip_idem.
  - destruct (truthy (default VUndefined (o !! "$date"))) eqn:Hd.
    + right. by rewrite newDate_clipped.
    + left. repeat split. by constructor.
Qed.

(** X2. The sort key is NaN exactly when a date was read and is invalid:
    a truthy [$date] sub-field or a non-empty string that the Date
    constructor turns into NaN.  No other timestamp gives NaN. *)
Theorem getTimeValue_NaN_iff (entry : Entry) :
  getTimeValue entry = NaN
  <-> (exists o, prop entry "timestamp" = VObj o
                 /\ truthy (default VUndefined (o !! "$date")) = true
                 /\ newDate (default VUndefined (o !! "$date")) = NaN)
      \/ (exists s, prop entry "timestamp" = VStr s /\ s <> ""
                    /\ newDate (VStr s) = NaN).
Proof.
  unfold getTimeValue.
  destruct (prop entry "timestamp") as [| |b|n|s|o] eqn:Hts; simpl.
  - split; [done|]. intros [(o & ? & _)|(s & ? & _)]; done.
  - split; [done|]. intros [(o & ? & _)|(s & ? & _)]; done.
  - split; [by destruct b|]. intros [(o & ? & _)|(s & ? & _)]; done.
  - split.
    + destruct n as [| |q|]; try done. simpl. by destruct (q ?= 0)%Qc.
    + intros [(o & ? & _)|(s & ? & _)]; done.
  - destruct (String.eqb_spec s ""); simpl.
    + split; [done|]. intros [(o & ? & _)|(s' & [= <-] & Hne & _)]; done.
    + split; [intros Hnan; right; by exists s|].
      intros [(o & ? & _)|(s' & [= <-] & _ & Hnan)]; done.
  - destruct (truthy (default VUndefined (o !! "$date"))) eqn:Hd.
    + split; [intros Hnan; left; by exists o|].
      intros [(o' & [= <-] & _ & Hnan)|(s & ? & _)]; done.
    + split; [done|]. intros [(o' & [= <-] & Hd' & _)|(s & ? & _)]; [congruence|done].
Qed.
End ResolverMore.

(** ** Rendering again *)

Lemma adjacentPairs_Sorted {A : Type} (R : A -> A -> Prop) (l : list A) :
  adjacentPairs R l -> Sorted R l.
Proof.
  induction l as [|x l IH]; intros Hadj; constructor.
  - apply IH. intros i a b Ha Hb. by apply (Hadj (S i)).
  - destruct l as [|y l]; constructor. by apply (Hadj 0%nat).
Qed.

Lemma hasLightIntensity_perm (arr arr' : list Entry) :
  arr ≡ₚ arr' -> hasLightIntensity (Some arr) = hasLightIntensity (Some arr').
Proof.
  intros Hp. apply eq_true_iff_eq. rewrite !hasLightIntensity_spec.
  by setoid_rewrite Hp.
Qed.

Section RenderAgain.
Context `{Platform}.

Lemma byTimeAsc_asym (x y : Entry) :
  gtZero (byTimeAsc x y) = true -> gtZero (byTimeAsc y x) = false.
Proof. apply gtZero_sub_asym. Qed.

Lemma byTimeAsc_trans (x y z : Entry) :
  gtZero (byTimeAsc x y) = true -> gtZero (byTimeAsc y z) = true ->
  gtZero (byTimeAsc x z) = true.
Proof. apply gtZero_sub_trans. Qed.

Lemma byTimeDesc_asym (x y : Entry) :
  gtZero (byTimeDesc x y) = true -> gtZero (byTimeDesc y x) = false.
Proof. apply gtZero_sub_asym. Qed.

Lemma byTimeDesc_trans (x y z : Entry) :
  gtZero (byTimeDesc x y) = true -> gtZero (byTimeDesc y z) = true ->
  gtZero (byTimeDesc x z) = true.
Proof. intros Hxy Hyz. unfold byTimeDesc in *. by apply gtZero_sub_trans with (getTimeValue y). Qed.

(** The table sort, seen from the chart comparator, exchanges only
    strictly ordered neighbours. *)
Lemma table_sort_tieOrder (arr : list Entry) :
  tieOrder byTimeAsc (sortBy byTimeDesc arr) arr.
Proof. apply (tieOrder_flip byTimeDesc); [done|apply sortBy_tieOrder]. Qed.

Lemma seriesEntries_tieOrder (k : string) (arr arr' : list Entry) :
  tieOrder byTimeAsc arr arr' -> seriesEntries k arr = seriesEntries k arr'.
Proof.
  intros Ht. unfold seriesEntries.
  apply tieOrder_sortBy; [apply byTimeAsc_asym|apply byTimeAsc_trans|].
  by do 2 apply tieOrder_filter.
Qed.

Lemma chartsPanel_results (sd : option (list Entry)) (arr : list Entry) :
  (chartsPanel sd arr).1
  = map (fun m => {| chartKey := key m; chartLabel := label m;
                     chartData := map (seriesPoint (key m)) (seriesEntries (key m) arr) |})
        (chartMetrics sd).
Proof. unfold chartsPanel. by rewrite mapM_results. Qed.

Lemma chartsPanel_table_sort (arr : list Entry) :
  (chartsPanel (Some (sortBy byTimeDesc arr)) (sortBy byTimeDesc arr)).1
  = (chartsPanel (Some arr) arr).1.
Proof.
  rewrite !chartsPanel_results. unfold chartMetrics.
  rewrite (hasLightIntensity_perm _ arr) by apply sortBy_perm.
  apply map_ext. intros m.
  by rewrite (seriesEntries_tieOrder _ _ arr) by apply table_sort_tieOrder.
Qed.

(** X3. After one render, rendering again changes nothing: for a batch
    whose instants all resolve, the second render returns the same view
    and leaves the state exactly as the first one left it. *)
Theorem render_idempotent (st : AppState) (batch : list Entry) :
  selectedData st = Some batch ->
  resolves batch ->
  render (render st).2 = render st.
Proof.
  intros Hsel _. destruct batch as [|entry batch].
  - by rewrite (render_empty st Hsel), (render_empty st Hsel).
  - rewrite (render_nonempty st _ Hsel) by done. cbn [snd].
    set (arr := entry :: batch).
    assert (sortBy byTimeDesc arr <> []) as Hne.
    { intros Hnil. apply (f_equal length) in Hnil. by rewrite sortBy_length in Hnil. }
    rewrite (render_nonempty _ (sortBy byTimeDesc arr)) by done.
    cbn [profiles selectedProfile].
    rewrite chartsPanel_table_sort.
    rewrite (hasLightIntensity_perm _ arr) by apply sortBy_perm.
    by rewrite (sortBy_idem byTimeDesc byTimeDesc_asym byTimeDesc_trans).
Qed.

(** X4. A render leaves the state untouched exactly when the batch is
    already stored newest first (for a batch whose instants all resolve);
    any other batch is stored reordered. *)
Theorem render_keeps_state_iff_descending (st : AppState) (batch : list Entry) :
  selectedData st = Some batch ->
  resolves batch ->
  (render st).2 = st <-> descending batch.
Proof.
  intros Hsel Hres. destruct batch as [|entry batch].
  - rewrite (render_empty st Hsel). split; [|done]. by intros _ [|i] a b Ha.
  - rewrite (render_nonempty st _ Hsel) by done. cbn [snd].
    remember (entry :: batch) as arr eqn:Harr. clear Harr.
    destruct st as [ps sd sp]. cbn [selectedData profiles selectedProfile] in *.
    subst sd. split.
    + intros Heq. assert (sortBy byTimeDesc arr = arr) as Hfix by congruence.
      rewrite <- Hfix. by apply resolves_table_descending.
    + intros Hdesc. do 2 f_equal.
      apply sortBy_Sorted_id, adjacentPairs_Sorted.
      intros i a b Ha Hb. apply jsLe_not_gtZero. by apply (Hdesc i).
Qed.

(** X5. A render only reorders: the stored batch after it is a permutation
    of the stored batch before it, and the profile list and the selected
    name are as before.  Without a batch the state is untouched. *)
Theorem render_only_reorders (st : AppState) :
  profiles (render st).2 = profiles st
  /\ selectedProfile (render st).2 = selectedProfile st
  /\ match selectedData st with
     | Some batch => exists batch', selectedData (render st).2 = Some batch' /\ batch' ≡ₚ batch
     | None => selectedData (render st).2 = None
     end.
Proof.
  destruct (selectedData st) as [[|entry batch]|] eqn:Hsel.
  - rewrite (render_empty st Hsel). repeat split; [done..|]. by exists [].
  - rewrite (render_nonempty st _ Hsel) by done. repeat split.
    eexists. split; [done|]. apply sortBy_perm.
  - unfold render. by rewrite Hsel.
Qed.

Lemma tieOrder_filter_instant (t : JsNum) (l l' : list Entry) :
  tieOrder byTimeAsc l l' ->
  filter (fun entry => getTimeValue entry = t) l
  = filter (fun entry => getTimeValue entry = t) l'.
Proof.
  induction 1 as [l|x l l' _ IH|x y l Hxy|l1 l2 l3 _ IH1 _ IH2].
  - done.
  - rewrite !filter_cons. by rewrite IH.
  - rewrite !filter_cons.
    destruct (decide (getTimeValue x = t)) as [Hx|], (decide (getTimeValue y = t)) as [Hy|];
      try done.
    exfalso. unfold strictlyOrdered, byTimeAsc in Hxy. rewrite Hx, Hy in Hxy.
    rewrite gtZero_sub_diag in Hxy. by destruct Hxy.
  - by rewrite IH1.
Qed.

(** X6. Records with the same instant keep their batch order, in the
    chart series and in the table (for a batch whose instants all resolve):
    restricted to any one instant, the sorted sequence is the unsorted
    one. *)
Theorem ties_keep_batch_order
    (batch : list Entry) (k : string) (hasLight : bool) (t : JsNum) :
  resolves batch ->
  filter (fun entry => getTimeValue entry = t) (seriesEntries k batch)
  = filter (fun entry => getTimeValue entry = t)
      (filter (fun entry => notNull (prop entry k))
         (filter (fun entry => hasTelemetry entry) batch))
  /\ filter (fun entry => getTimeValue entry = t) (tableBody hasLight batch).2
     = filter (fun entry => getTimeValue entry = t) batch.
Proof.
  intros _. split.
  - apply tieOrder_filter_instant, sortBy_tieOrder.
  - apply tieOrder_filter_instant, table_sort_tieOrder.
Qed.
End RenderAgain.

(** ** What a view holds together *)

Section ViewFacts.
Context `{Platform}.

Lemma hasTelemetry_of_metric (k : string) (entry : Entry) :
  k ∈ ["temperature"; "humidity"; "pressure"; "percentage_light_intensity"] ->
  notNull (prop entry k) = true -> hasTelemetry entry = true.
Proof.
  intros Hk Hv. unfold hasTelemetry.
  apply list_elem_of_In in Hk. simpl in Hk.
  destruct Hk as [<-|[<-|[<-|[<-|[]]]]]; rewrite Hv; by rewrite ?orb_true_r.
Qed.

(** X7. For each of the four chart metrics the series has exactly one
    point per record whose value for that metric is neither null nor
    absent: the records behind the series are a rearrangement of those
    records, so none is dropped and none is doubled. *)
Theorem series_covers_metric (batch : list Entry) (k : string) :
  k ∈ ["temperature"; "humidity"; "pressure"; "percentage_light_intensity"] ->
  seriesEntries k batch ≡ₚ filter (fun entry => notNull (prop entry k)) batch
  /\ length (seriesData k batch).1
     = length (filter (fun entry => notNull (prop entry k)) batch)
  /\ (forall entry, entry ∈ batch -> notNull (prop entry k) = true ->
        seriesPoint k entry ∈ (seriesData k batch).1).
Proof.
  intros Hk.
  assert (seriesEntries k batch ≡ₚ filter (fun entry => notNull (prop entry k)) batch) as Hp.
  { unfold seriesEntries. rewrite sortBy_perm, list_filter_filter.
    erewrite list_filter_iff; [done|]. intros entry. split; [tauto|].
    intros Hv. split; [done|]. apply Is_true_true.
    apply Is_true_true in Hv. by apply (hasTelemetry_of_metric k). }
  split; [done|]. rewrite seriesData_eq. cbn [fst]. split.
  - by rewrite length_map, Hp.
  - intros entry Hin Hv. apply list_elem_of_In, in_map, list_elem_of_In.
    rewrite Hp. apply list_elem_of_filter. by rewrite Is_true_true.
Qed.

Lemma rowCells_length (hasLight : bool) (entry : Entry) :
  length (rowCells (tableRow hasLight entry)) = length (tableHeader hasLight).
Proof. by destruct hasLight. Qed.

(** X8. In every view the table is rectangular: each row has exactly as
    many cells as the header has columns (four, or five with the
    light-intensity column). *)
Theorem rows_match_header (st : AppState) (row : TableRow) :
  row ∈ renderedRows (render st).1 ->
  length (rowCells row) = length (renderedHeader (render st).1).
Proof.
  destruct (selectedData st) as [[|entry batch]|] eqn:Hsel.
  - rewrite (render_empty st Hsel). by intros ?%not_elem_of_nil.
  - rewrite (render_nonempty st _ Hsel) by done. unfold renderedRows, renderedHeader.
    cbn [fst tablePanelView].
    intros (e & <- & _)%list_elem_of_In%in_map_iff. apply rowCells_length.
  - unfold render. rewrite Hsel. by intros ?%not_elem_of_nil.
Qed.

(** X9. For a non-empty batch the view has one chart per listed metric,
    under distinct keys, and the light-intensity chart, the
    light-intensity column and a record with a non-null
    [percentage_light_intensity] come together or not at all. *)
Theorem charts_and_light_column (st : AppState) (batch : list Entry) :
  selectedData st = Some batch -> batch <> [] ->
  let v := (render st).1 in
  map chartKey (renderedCharts v) = map key (chartMetrics (Some batch))
  /\ NoDup (map chartKey (renderedCharts v))
  /\ ("percentage_light_intensity" ∈ map chartKey (renderedCharts v)
      <-> "Light Intensity(%)" ∈ renderedHeader v)
  /\ ("Light Intensity(%)" ∈ renderedHeader v
      <-> exists entry, entry ∈ batch
                        /\ notNull (prop entry "percentage_light_intensity") = true).
Proof.
  intros Hsel Hne v. subst v. rewrite (render_nonempty st _ Hsel) by done.
  unfold renderedCharts, renderedHeader. cbn [fst chartsPanelView tablePanelView].
  rewrite chartsPanel_keys, <- hasLightIntensity_spec.
  unfold chartMetrics, tableHeader.
  destruct (hasLightIntensity (Some batch)); simpl;
    (split; [done|]); (split; [|split]).
  - repeat (constructor; [rewrite list_elem_of_In; simpl; intuition discriminate|]).
    constructor.
  - rewrite !list_elem_of_In. simpl. tauto.
  - rewrite !list_elem_of_In. simpl. tauto.
  - repeat (constructor; [rewrite list_elem_of_In; simpl; intuition discriminate|]).
    constructor.
  - rewrite !list_elem_of_In. simpl. intuition discriminate.
  - rewrite !list_elem_of_In. simpl. intuition discriminate.
Qed.

(** Without a non-empty batch the view has no chart and no table row, only
    a card, and the state is untouched. *)
Lemma render_without_data (st : AppState) :
  selectedData st = None \/ selectedData st = Some [] ->
  renderedCharts (render st).1 = []
  /\ renderedRows (render st).1 = []
  /\ tablePanelView (render st).1
     = EmptyCard (match selectedData st with
                  | Some _ => "No time-series data available for this profile."
                  | None => "Click a marker to load data."
                  end)
  /\ (render st).2 = st.
Proof.
  intros [Hsel|Hsel].
  - unfold render. by rewrite Hsel.
  - rewrite (render_empty st Hsel). by rewrite Hsel.
Qed.

(** X10. What the next render shows after a request settles.  A rejected
    request changes nothing on screen: the render is the one of the prior
    state.  A fulfilled one shows one table row per record of the response;
    when the response is empty it shows no chart and the no-data notice
    instead of the table. *)
Theorem click_then_render (id name : JsVal) (response : Settled (list Entry)) (w : World) :
  let w' := (handleClick id name response w).2 in
  match response with
  | Rejected _ => render (app w') = render (app w)
  | Fulfilled data =>
      length (renderedRows (render (app w')).1) = length data
      /\ (data = [] ->
          renderedCharts (render (app w')).1 = []
          /\ tablePanelView (render (app w')).1
             = EmptyCard "No time-series data available for this profile.")
      /\ (data <> [] ->
          map chartKey (renderedCharts (render (app w')).1)
          = map key (chartMetrics (Some data)))
  end.
Proof.
  destruct response as [data|err]; [|done].
  rewrite handleClick_fulfilled. cbn [app].
  set (st := {| profiles := profiles (app w); selectedData := Some data;
                selectedProfile := name |}).
  split; [|split].
  - destruct data as [|entry data].
    + by rewrite (render_empty st).
    + rewrite (renderedRows_nonempty st (entry :: data)) by done.
      by rewrite length_map, sortBy_length.
  - intros ->. by rewrite (render_empty st).
  - intros Hne. rewrite (render_nonempty st data) by done.
    unfold renderedCharts. cbn [fst chartsPanelView]. apply chartsPanel_keys.
Qed.
End ViewFacts.

(** ** Requests settling in any order *)

(** X11. After any sequence of settled requests the batch and the selected
    name are those of the last request that was fulfilled (the prior ones
    if none was), whichever marker was clicked last; the profile list is
    untouched and the console has one more entry per settled request. *)
Theorem settleAll_last_fulfilled (rs : list Settlement) (w : World) :
  let w' := (settleAll rs w).2 in
  profiles (app w') = profiles (app w)
  /\ length (console w') = (length (console w) + length rs)%nat
  /\ match lastFulfilled rs with
     | Some (data, name) =>
         selectedData (app w') = Some data /\ selectedProfile (app w') = name
     | None =>
         selectedData (app w') = selectedData (app w)
         /\ selectedProfile (app w') = selectedProfile (app w)
     end.
Proof.
  revert w. induction rs as [|r rs IH]; intros w; simpl.
  - repeat split. lia.
  - unfold mbind, eff_bind.
    destruct (handleClick (requestId r) (requestName r) (requestResponse r) w)
      as [[] w1] eqn:Hstep.
    specialize (IH w1). simpl in IH. destruct IH as (Hp & Hc & Hl).
    assert (w1 = (handleClick (requestId r) (requestName r) (requestResponse r) w).2)
      as Hw1 by (by rewrite Hstep).
    destruct (requestResponse r) as [data|err] eqn:Hresp.
    + rewrite handleClick_fulfilled in Hw1. subst w1.
      cbn [app console profiles selectedData selectedProfile] in Hp, Hc, Hl.
      rewrite length_app in Hc. simpl in Hc.
      split; [done|]. split; [lia|].
      by destruct (lastFulfilled rs) as [[d n]|].
    + assert (app w1 = app w /\ length (console w1) = S (length (console w))) as [Ha Hlen].
      { rewrite Hw1. simpl. rewrite length_app. simpl. split; [done|lia]. }
      rewrite Ha in Hp, Hl. split; [done|]. split; [lia|].
      by destruct (lastFulfilled rs) as [[d n]|].
Qed.

(** ** The map markers *)

Section MarkerFacts.
Context (toFixed : JsNum -> nat -> string).

Lemma position_pair (profile : Profile) (pos : list JsVal) :
  position profile = Some pos ->
  latestCoords profile = Some pos /\ exists a b, pos = [a; b].
Proof.
  unfold position. destruct (latestCoords profile) as [items|]; [|done].
  destruct items as [|a [|b [|c items]]]; simpl; try done.
  intros [= <-]. eauto.
Qed.

Lemma displayName_truthy (profile : Profile) : truthy (displayName profile) = true.
Proof.
  unfold displayName, jsOr.
  destruct (truthy (prop (profileProps profile) "name")) eqn:E1; rewrite ?E1; [done|].
  by destruct (truthy (prop (profileProps profile) "profileName")) eqn:E2; rewrite ?E2.
Qed.

Lemma marker_throws_iff (profile : Profile) :
  marker toFixed profile = None
  <-> exists pos v, position profile = Some pos /\ v ∈ pos /\ isNumber v = false.
Proof.
  unfold marker. destruct (position profile) as [pos|] eqn:Hpos.
  - destruct (position_pair _ _ Hpos) as (_ & a & b & ->). simpl. split.
    + destruct a; simpl; try (intros _; eexists _, _; split; [done|];
        split; [apply list_elem_of_here|done]).
      destruct b; simpl; try done; intros _; eexists _, _; (split; [done|]);
        (split; [apply list_elem_of_further, list_elem_of_here|done]).
    + intros (pos & v & [= <-] & Hin & Hv).
      apply list_elem_of_In in Hin. simpl in Hin.
      destruct Hin as [<-|[<-|[]]]; destruct a, b; simpl in *; done.
  - split; [done|]. intros (pos & v & ? & _). done.
Qed.

(** X12. The map throws exactly when some profile has a two-element
    [latestCoords] holding something that is not a number: the popup calls
    [toFixed] on both coordinates.  Profiles without a two-element array
    never make it throw. *)
Theorem markers_throw_iff (profiles : list Profile) :
  markers toFixed profiles = None
  <-> exists profile pos v,
        profile ∈ profiles /\ position profile = Some pos /\ v ∈ pos /\ isNumber v = false.
Proof.
  induction profiles as [|p ps IH]; simpl.
  - split; [done|]. intros (p & pos & v & Hin & _). by apply not_elem_of_nil in Hin.
  - destruct (marker toFixed p) as [m|] eqn:Hm; simpl.
    + destruct (markers toFixed ps) as [ms|] eqn:Hms; simpl.
      * split; [done|]. intros (q & pos & v & Hin & Hpos & Hv & Hn).
        apply elem_of_cons in Hin as [->|Hin].
        -- assert (marker toFixed p = None) as Hnone
             by (apply marker_throws_iff; eauto). congruence.
        -- assert (Some ms = None) as Hnone by (apply IH; eauto 10). done.
      * split; [|done]. intros _.
        destruct (proj1 IH eq_refl) as (q & pos & v & Hin & Hrest).
        exists q, pos, v. split; [by apply list_elem_of_further|done].
    + split; [|done]. intros _.
      apply marker_throws_iff in Hm as (pos & v & Hrest).
      exists p, pos, v. split; [apply list_elem_of_here|done].
Qed.

(** X13. When the map renders, its markers are, in the order of the
    profile list, those of the profiles whose [latestCoords] is a
    two-element array, each keyed by the profile's id, at those
    coordinates, and named by the display name; every other profile is
    skipped without notice. *)
Theorem markers_of_placeable (profiles : list Profile) (ms : list MarkerView) :
  markers toFixed profiles = Some ms ->
  map (fun m => (markerKey m, popupName m, markerPosition m)) ms
  = omap (fun profile =>
            pos ← position profile;
            Some (prop (profileProps profile) "id", displayName profile, pos))
         profiles.
Proof.
  revert ms. induction profiles as [|p ps IH]; intros ms; simpl.
  - by intros [= <-].
  - destruct (marker toFixed p) as [m|] eqn:Hm; [|done]. simpl.
    destruct (markers toFixed ps) as [ms'|]; [|done]. simpl. intros [= <-].
    unfold marker in Hm. destruct (position p) as [pos|] eqn:Hpos; simpl.
    + destruct (callToFixed toFixed (default VUndefined (pos !! 0%nat)) 4); [|done].
      destruct (callToFixed toFixed (default VUndefined (pos !! 1%nat)) 4); [|done].
      simpl in Hm. injection Hm as <-. simpl. f_equal. by apply IH.
    + injection Hm as <-. by apply IH.
Qed.

(** X14. Every marker carries a truthy name, and when the request made by
    clicking it is fulfilled, the batch becomes the response and the
    selected name becomes that name, so a selection always has a name to
    show. *)
Theorem marker_click_selects_name
    (profiles : list Profile) (ms : list MarkerView) (m : MarkerView)
    (data : list Entry) (w : World) :
  markers toFixed profiles = Some ms -> m ∈ ms ->
  let w' := (markerClick m (Fulfilled data) w).2 in
  truthy (popupName m) = true
  /\ selectedData (app w') = Some data
  /\ selectedProfile (app w') = popupName m
  /\ exists profile, profile ∈ profiles /\ popupName m = displayName profile
                     /\ markerKey m = prop (profileProps profile) "id".
Proof.
  revert ms. induction profiles as [|p ps IH]; intros ms; simpl.
  - intros [= <-] Hin. by apply not_elem_of_nil in Hin.
  - destruct (marker toFixed p) as [mo|] eqn:Hm; [|done]. simpl.
    destruct (markers toFixed ps) as [ms'|]; [|done]. simpl. intros [= <-] Hin.
    assert (m ∈ ms' -> let w' := (markerClick m (Fulfilled data) w).2 in
            truthy (popupName m) = true
            /\ selectedData (app w') = Some data
            /\ selectedProfile (app w') = popupName m
            /\ exists profile, profile ∈ p :: ps /\ popupName m = displayName profile
                               /\ markerKey m = prop (profileProps profile) "id") as Hrest.
    { intros Hin'. destruct (IH ms' eq_refl Hin') as (H1 & H2 & H3 & q & Hq & Hrest).
      repeat split; try done. exists q. split; [by apply list_elem_of_further|done]. }
    destruct mo as [mv|]; [|by apply Hrest].
    apply elem_of_cons in Hin as [->|Hin]; [|by apply Hrest].
    unfold marker in Hm. destruct (position p) as [pos|]; [|done].
    destruct (callToFixed toFixed (default VUndefined (pos !! 0%nat)) 4); [|done].
    destruct (callToFixed toFixed (default VUndefined (pos !! 1%nat)) 4); [|done].
    simpl in Hm. injection Hm as <-. simpl.
    split; [apply displayName_truthy|]. repeat split.
    exists p. split; [apply list_elem_of_here|done].
Qed.
End MarkerFacts.

(** ** The statements above, on concrete batches and profiles *)

Lemma render_idempotent_witness :
  let P := RefPlatform.platform in
  let batch : list Entry :=
    [ {[ "timestamp" := VStr "2024-01-01T00:00:00Z"; "temperature" := VNum (ofZ 20) ]};
      {[ "timestamp" := VNum (ofZ 1704153600000); "temperature" := VNum (ofZ 22) ]};
      {[ "timestamp" := VObj {[ "$date" := VStr "2024-01-02T00:00:00Z" ]};
         "temperature" := VNum (ofZ 21) ]} ] in
  let st := {| profiles := []; selectedData := Some batch; selectedProfile := VStr "Station" |} in
  @render P (@render P st).2 = @render P st.
Proof.
  intros P batch st. apply (@render_idempotent P st batch eq_refl).
  repeat constructor; vm_compute; discriminate.
Defined.

Lemma render_keeps_state_iff_descending_witness :
  let P := RefPlatform.platform in
  let batch : list Entry :=
    [ {[ "timestamp" := VNum (ofZ 2000); "temperature" := VNum (ofZ 21) ]};
      {[ "timestamp" := VNum (ofZ 1000); "temperature" := VNum (ofZ 20) ]} ] in
  let st := {| profiles := []; selectedData := Some batch; selectedProfile := VStr "Station" |} in
  @descending P batch.
Proof.
  intros P batch st.
  apply (@render_keeps_state_iff_descending P st batch eq_refl).
  - repeat constructor; vm_compute; discriminate.
  - vm_compute. reflexivity.
Defined.

Lemma ties_keep_batch_order_witness :
  let P := RefPlatform.platform in
  let first : Entry := {[ "timestamp" := VNum (ofZ 1000); "temperature" := VNum (ofZ 20) ]} in
  let late : Entry := {[ "timestamp" := VNum (ofZ 2000); "temperature" := VNum (ofZ 22) ]} in
  let second : Entry := {[ "timestamp" := VNum (ofZ 1000); "temperature" := VNum (ofZ 21) ]} in
  filter (fun entry => @getTimeValue P entry = ofZ 1000)
    (@tableBody P false [first; late; second]).2
  = filter (fun entry => @getTimeValue P entry = ofZ 1000) [first; late; second].
Proof.
  intros P first late second.
  apply (@ties_keep_batch_order P [first; late; second] "temperature" false (ofZ 1000)).
  repeat constructor; vm_compute; discriminate.
Defined.

Lemma series_covers_metric_witness :
  let P := RefPlatform.platform in
  let batch : list Entry :=
    [ {[ "timestamp" := VNum (ofZ 2000); "humidity" := VNum (ofZ 50) ]};
      {[ "timestamp" := VNum (ofZ 1000); "temperature" := VNum (ofZ 20) ]};
      {[ "timestamp" := VNum (ofZ 3000); "humidity" := VNum (ofZ 0) ]} ] in
  length (@seriesData P "humidity" batch).1
  = length (filter (fun entry => notNull (prop entry "humidity")) batch).
Proof.
  intros P batch.
  apply (@series_covers_metric P batch "humidity").
  apply list_elem_of_In. simpl. tauto.
Defined.

Lemma rows_match_header_witness :
  let P := RefPlatform.platform in
  let batch : list Entry :=
    [ {[ "timestamp" := VNum (ofZ 1000); "percentage_light_intensity" := VNum (ofZ 70) ]} ] in
  let st := {| profiles := []; selectedData := Some batch; selectedProfile := VStr "Station" |} in
  Forall (fun row => length (rowCells row) = length (renderedHeader (@render P st).1))
    (renderedRows (@render P st).1).
Proof.
  intros P batch st. apply Forall_forall. intros row Hrow.
  exact (@rows_match_header P st row Hrow).
Defined.

Lemma charts_and_light_column_witness :
  let P := RefPlatform.platform in
  let batch : list Entry :=
    [ {[ "timestamp" := VNum (ofZ 1000); "percentage_light_intensity" := VNum (ofZ 70) ]} ] in
  let st := {| profiles := []; selectedData := Some batch; selectedProfile := VStr "Station" |} in
  map chartKey (renderedCharts (@render P st).1) = map key (chartMetrics (Some batch))
  /\ NoDup (map chartKey (renderedCharts (@render P st).1)).
Proof.
  intros P batch st.
  destruct (@charts_and_light_column P st batch eq_refl) as (Hkeys & Hnodup & _);
    [discriminate|].
  split; assumption.
Defined.

Lemma markers_of_placeable_witness :
  let placed : Profile :=
    {| profileProps := {[ "id" := VStr "p1"; "name" := VStr "Kandy" ]};
       latestCoords := Some [VNum (Fin (Q2Qc (72906 # 10000))); VNum (Fin (Q2Qc (806337 # 10000)))] |} in
  let unplaced : Profile :=
    {| profileProps := {[ "id" := VStr "p2"; "profileName" := VStr "Galle" ]};
       latestCoords := Some [VNum (ofZ 6)] |} in
  let unnamed : Profile :=
    {| profileProps := {[ "id" := VStr "p3"; "name" := VStr "" ]};
       latestCoords := Some [VNum (ofZ 7); VNum (ofZ 80)] |} in
  match markers RefNumber.toFixed [placed; unplaced; unnamed] with
  | Some ms =>
      map (fun m => (markerKey m, popupName m, markerPosition m)) ms
      = [ (VStr "p1", VStr "Kandy",
           [VNum (Fin (Q2Qc (72906 # 10000))); VNum (Fin (Q2Qc (806337 # 10000)))]);
          (VStr "p3", VStr "Unnamed profile", [VNum (ofZ 7); VNum (ofZ 80)]) ]
      /\ map popupCoordinates ms = [("7.2906", "80.6337"); ("7.0000", "80.0000")]
  | None => False
  end.
Proof.
  intros placed unplaced unnamed.
  destruct (markers RefNumber.toFixed [placed; unplaced; unnamed]) as [ms|] eqn:Hms;
    [|vm_compute in Hms; discriminate].
  split.
  - rewrite (markers_of_placeable RefNumber.toFixed _ ms Hms). vm_compute. reflexivity.
  - vm_compute in Hms. injection Hms as <-. vm_compute. reflexivity.
Defined.

Lemma marker_click_selects_name_witness :
  let unnamed : Profile :=
    {| profileProps := {[ "id" := VStr "p3"; "name" := VStr "" ]};
       latestCoords := Some [VNum (ofZ 7); VNum (ofZ 80)] |} in
  let w := {| app := initialState; console := [] |} in
  match markers RefNumber.toFixed [unnamed] with
  | Some (m :: _) =>
      selectedProfile (app (markerClick m (Fulfilled []) w).2) = popupName m
      /\ truthy (popupName m) = true
  | _ => False
  end.
Proof.
  intros unnamed w.
  destruct (markers RefNumber.toFixed [unnamed]) as [[|m ms]|] eqn:Hms;
    try (vm_compute in Hms; discriminate).
  destruct (marker_click_selects_name RefNumber.toFixed [unnamed] (m :: ms) m [] w Hms
              (list_elem_of_here _ _)) as (Htruthy & _ & Hname & _).
  split; assumption.
Defined.
